(** * agent-pipeline: the phase state machine and its persisted store

    A shallow embedding of the pipeline core of the extension:

    - [AgentConfig]     the phase table (AgentConfig.ts);
    - [Storage]         the persisted store (utils/storage.ts);
    - [PipelineManager] the controller (pipeline/PipelineManager.ts);
    - [McpServer]       the tool surface of the worker process
                        (mcp/server.ts), which works on the store alone.

    Phases, agent names and contents are JavaScript strings; the TypeScript
    union [PipelinePhase] is kept as an enumeration with its injection into
    strings, because the state record stores [currentPhase: string] and the
    controller only casts it.  Objects used as dictionaries are finite maps
    of their own properties; reads and writes with a key that is not a
    literal go through [Js.get] and [Js.set], which follow the prototype
    chain of an object literal.  Time is a sequence of clock readings, one
    per [new Date()]. *)

From Stdlib Require Import ZArith.
From stdpp Require Import base option list gmap strings pretty.

Set Warnings "-register-all".

Local Open Scope string_scope.

(** ** JavaScript objects used as dictionaries *)

Module Js.

(** The properties every object literal (and every object that [JSON.parse]
    builds) inherits from [Object.prototype].  [__proto__] is an accessor
    whose getter returns [Object.prototype] itself; the others are
    functions.  All of them are truthy. *)
Definition Object_prototype : list string :=
  [ "constructor"; "__defineGetter__"; "__defineSetter__"; "hasOwnProperty";
    "__lookupGetter__"; "__lookupSetter__"; "isPrototypeOf";
    "propertyIsEnumerable"; "toString"; "valueOf"; "__proto__";
    "toLocaleString" ].

(** What [o[k]] evaluates to: an own property, a value found on the
    prototype (named by its key), or [undefined]. *)
Inductive property (A : Type) : Type :=
| Own (v : A)
| Inherited (key : string)
| Undefined.
Arguments Own {A} v.
Arguments Inherited {A} key.
Arguments Undefined {A}.

(** [o[k]] *)
Definition get {A} (o : gmap string A) (k : string) : property A :=
  match o !! k with
  | Some v => Own v
  | None => if bool_decide (k ∈ Object_prototype) then Inherited k else Undefined
  end.

(** [o[k] = v] for a primitive [v]: an own data property is created or
    overwritten, except that the inherited [__proto__] setter swallows the
    assignment of a primitive when [o] has no own property of that name. *)
Definition set {A} (o : gmap string A) (k : string) (v : A) : gmap string A :=
  if bool_decide (k = "__proto__" ∧ o !! k = None) then o else <[k:=v]> o.

(** [a.indexOf(x)], with -1 for an absent element. *)
Fixpoint indexOf_from (i : Z) (a : list string) (x : string) : Z :=
  match a with
  | [] => (-1)%Z
  | y :: a' => if bool_decide (y = x) then i else indexOf_from (i + 1)%Z a' x
  end.

Definition indexOf (a : list string) (x : string) : Z := indexOf_from 0 a x.

(** [a.push(x)] *)
Definition push {A} (a : list A) (x : A) : list A := (a ++ [x])%list.

(** [a.includes(x)] *)
Definition includes (a : list string) (x : string) : bool :=
  bool_decide (x ∈ a).

(** The double quote, for the template literals that quote a phase. *)
Definition dquote : string := String (Ascii.ascii_of_nat 34) EmptyString.

End Js.

(** ** AgentConfig.ts: the phase table *)

Module AgentConfig.

Inductive PipelinePhase : Type :=
| idle | planning | plan_review | implementing | impl_review
| reviewing | review_done | testing | completed.

(** The string a member of the union is. *)
Definition phase_name (p : PipelinePhase) : string :=
  match p with
  | idle => "idle"
  | planning => "planning"
  | plan_review => "plan_review"
  | implementing => "implementing"
  | impl_review => "impl_review"
  | reviewing => "reviewing"
  | review_done => "review_done"
  | testing => "testing"
  | completed => "completed"
  end.

Definition all_phases : list PipelinePhase :=
  [idle; planning; plan_review; implementing; impl_review;
   reviewing; review_done; testing; completed].

Record AgentDefinition : Type := {
  name : string;
  displayName : string;
  phase : string;
  reviewPhase : string;
  description : string;
  mdcFile : string;
  requiredInputs : list string;
  outputKey : string;
  defaultModel : string;
}.

Definition planner_agent : AgentDefinition := {|
  name := "planner";
  displayName := "Planner";
  phase := "planning";
  reviewPhase := "plan_review";
  description := "Analyzes the task and creates a detailed implementation plan";
  mdcFile := "planner.mdc";
  requiredInputs := [];
  outputKey := "planner";
  defaultModel := "claude-4.5-sonnet";
|}.

Definition implementer_agent : AgentDefinition := {|
  name := "implementer";
  displayName := "Implementer";
  phase := "implementing";
  reviewPhase := "impl_review";
  description := "Implements the code changes according to the plan";
  mdcFile := "implementer.mdc";
  requiredInputs := ["planner"];
  outputKey := "implementer";
  defaultModel := "claude-4.6-opus";
|}.

Definition reviewer_agent : AgentDefinition := {|
  name := "reviewer";
  displayName := "Reviewer";
  phase := "reviewing";
  reviewPhase := "review_done";
  description :=
    "Reviews the implementation for quality, security, and best practices";
  mdcFile := "reviewer.mdc";
  requiredInputs := ["planner"; "implementer"];
  outputKey := "reviewer";
  defaultModel := "gpt-5.2";
|}.

Definition test_agent : AgentDefinition := {|
  name := "test";
  displayName := "Tester";
  phase := "testing";
  reviewPhase := "completed";
  description := "Creates and runs tests for the implementation";
  mdcFile := "test.mdc";
  requiredInputs := ["planner"; "implementer"; "reviewer"];
  outputKey := "test";
  defaultModel := "claude-4.5-sonnet";
|}.

Definition AGENTS : gmap string AgentDefinition :=
  <["planner" := planner_agent]>
  (<["implementer" := implementer_agent]>
  (<["reviewer" := reviewer_agent]>
  (<["test" := test_agent]> ∅))).

Definition PHASE_ORDER : list string :=
  [ "idle"; "planning"; "plan_review"; "implementing"; "impl_review";
    "reviewing"; "review_done"; "testing"; "completed" ].

Definition PHASE_AGENT_MAP : gmap string string :=
  <["planning" := "planner"]>
  (<["implementing" := "implementer"]>
  (<["reviewing" := "reviewer"]>
  (<["testing" := "test"]> ∅))).

Definition REVIEW_PHASES : list string :=
  [ "plan_review"; "impl_review"; "review_done" ].

(** [getAgentForPhase]: [agentName ? AGENTS[agentName] : undefined].  When
    [PHASE_AGENT_MAP[phase]] is an inherited value (a function, or
    [Object.prototype]), it is truthy and is converted to a string to index
    [AGENTS]; that string ("function ...() { [native code] }" or
    "[object Object]") is no property of [AGENTS], own or inherited, so the
    result is [undefined]. *)
Definition getAgentForPhase (phase : string) : option AgentDefinition :=
  match Js.get PHASE_AGENT_MAP phase with
  | Js.Own agentName =>
      match Js.get AGENTS agentName with
      | Js.Own agent => Some agent
      | _ => None
      end
  | Js.Inherited _ => None
  | Js.Undefined => None
  end.

(** [getNextPhaseAfterApproval].  The guard keeps [idx + 1] inside the
    array, so the default of [nth] is never returned. *)
Definition getNextPhaseAfterApproval (currentPhase : string) : string :=
  let idx := Js.indexOf PHASE_ORDER currentPhase in
  if bool_decide (idx = (-1)%Z ∨ (idx >= Z.of_nat (length PHASE_ORDER) - 1)%Z)
  then "completed"
  else nth (Z.to_nat (idx + 1)) PHASE_ORDER "completed".

(** [getRetryPhase] *)
Definition getRetryPhase (currentPhase : string) : string :=
  if bool_decide (currentPhase = "plan_review") then "planning"
  else if bool_decide (currentPhase = "impl_review") then "implementing"
  else if bool_decide (currentPhase = "review_done") then "implementing"
  else if bool_decide (currentPhase = "testing") then "implementing"
  else currentPhase.

End AgentConfig.

(** ** utils/storage.ts: the persisted store *)

Module Storage.

Record HistoryEntry : Type := {
  phase : string;
  action : string;
  timestamp : string;
  detail : option string;            (* [detail?: string] *)
}.

Record PipelineState : Type := {
  currentPhase : string;
  taskDescription : string;
  outputs : gmap string string;      (* own properties of the object *)
  history : list HistoryEntry;
  createdAt : string;
  updatedAt : string;
}.

Definition set_currentPhase (p : string) (s : PipelineState) : PipelineState :=
  {| currentPhase := p; taskDescription := taskDescription s;
     outputs := outputs s; history := history s;
     createdAt := createdAt s; updatedAt := updatedAt s |}.

Definition set_taskDescription (t : string) (s : PipelineState) : PipelineState :=
  {| currentPhase := currentPhase s; taskDescription := t;
     outputs := outputs s; history := history s;
     createdAt := createdAt s; updatedAt := updatedAt s |}.

Definition set_outputs (o : gmap string string) (s : PipelineState) : PipelineState :=
  {| currentPhase := currentPhase s; taskDescription := taskDescription s;
     outputs := o; history := history s;
     createdAt := createdAt s; updatedAt := updatedAt s |}.

Definition set_history (h : list HistoryEntry) (s : PipelineState) : PipelineState :=
  {| currentPhase := currentPhase s; taskDescription := taskDescription s;
     outputs := outputs s; history := h;
     createdAt := createdAt s; updatedAt := updatedAt s |}.

Definition set_updatedAt (t : string) (s : PipelineState) : PipelineState :=
  {| currentPhase := currentPhase s; taskDescription := taskDescription s;
     outputs := outputs s; history := history s;
     createdAt := createdAt s; updatedAt := t |}.

(** *** The values of JSON

    What [JSON.parse] returns.  An object is the list of its properties.
    The records of this program hold no number; the constructor is there
    for the other values a file can hold. *)
Inductive json : Type :=
| JNull
| JBool (b : bool)
| JNumber (n : Z)
| JString (s : string)
| JArray (items : list json)
| JObject (properties : list (string * json)).

(** What [JSON.stringify] followed by [JSON.parse] makes of a state.  A
    property whose value is [undefined] is not printed, so an entry without
    detail has no [detail] property. *)
Definition entry_to_json (e : HistoryEntry) : json :=
  JObject ([ ("phase", JString (phase e));
             ("action", JString (action e));
             ("timestamp", JString (timestamp e)) ]
           ++ match detail e with
              | Some d => [ ("detail", JString d) ]
              | None => []
              end).

Definition outputs_to_json (o : gmap string string) : json :=
  JObject (prod_map id JString <$> map_to_list o).

Definition state_to_json (s : PipelineState) : json :=
  JObject [ ("currentPhase", JString (currentPhase s));
            ("taskDescription", JString (taskDescription s));
            ("outputs", outputs_to_json (outputs s));
            ("history", JArray (entry_to_json <$> history s));
            ("createdAt", JString (createdAt s));
            ("updatedAt", JString (updatedAt s)) ].

(** The shape test behind the words "a well-formed PipelineState record":
    the value is read back as a state when it is an object with exactly the
    properties of the interface, each of its declared type. *)
Definition as_string (v : json) : option string :=
  match v with JString s => Some s | _ => None end.

Definition with_keys (keys : list string) (v : json) : option (list json) :=
  match v with
  | JObject properties =>
      if bool_decide (properties.*1 = keys) then Some properties.*2 else None
  | _ => None
  end.

Definition entry_of_json (v : json) : option HistoryEntry :=
  match with_keys ["phase"; "action"; "timestamp"] v with
  | Some [JString p; JString a; JString t] =>
      Some {| phase := p; action := a; timestamp := t; detail := None |}
  | _ =>
      match with_keys ["phase"; "action"; "timestamp"; "detail"] v with
      | Some [JString p; JString a; JString t; JString d] =>
          Some {| phase := p; action := a; timestamp := t; detail := Some d |}
      | _ => None
      end
  end.

Definition outputs_of_json (v : json) : option (gmap string string) :=
  match v with
  | JObject properties =>
      list_to_map <$> mapM (λ kv, (kv.1,.) <$> as_string kv.2) properties
  | _ => None
  end.

Definition history_of_json (v : json) : option (list HistoryEntry) :=
  match v with
  | JArray items => mapM entry_of_json items
  | _ => None
  end.

Definition state_of_json (v : json) : option PipelineState :=
  match with_keys ["currentPhase"; "taskDescription"; "outputs"; "history";
                   "createdAt"; "updatedAt"] v with
  | Some [JString p; JString t; o; h; JString c; JString u] =>
      o' ← outputs_of_json o;
      h' ← history_of_json h;
      Some {| currentPhase := p; taskDescription := t; outputs := o';
              history := h'; createdAt := c; updatedAt := u |}
  | _ => None
  end.

(** *** The disk

    [state.json] is kept as what reading and parsing it gives: the read
    raises, the text is no JSON, or the text is the JSON of a value; writing
    [JSON.stringify(v)] leaves the file that parses to [v] again.  The
    outputs directory maps an agent name to its file [<name>.md], a name
    being taken as one path component and a content as text that UTF-8 can
    hold.

    Every write lands: an entry that a function overwrites is taken to be
    one that the process may overwrite, and a name to be the name of a
    file.  On a real disk [fs.writeFileSync] raises when its target is a
    directory or a file without permission, entries that cannot be read
    either, and [path.join] resolves a name that holds a separator to
    another file.  The properties that rest on a write or on a name say so:
    see [Spec.record_writable], [Spec.output_writable] and
    [Spec.file_name]. *)
Inductive StateFile : Type :=
| StateUnreadable                    (* [fs.readFileSync] raises *)
| StateNotJson                       (* [JSON.parse] raises *)
| StateJson (v : json).

Inductive OutputFile : Type :=
| OutputUnreadable                   (* [fs.readFileSync] raises *)
| OutputText (content : string).

Record PipelineDir : Type := {
  stateFile : option StateFile;                   (* state.json *)
  outputsDir : option (gmap string OutputFile);   (* outputs/ *)
}.

(** [.agent_pipeline/] under the workspace root, when it exists. *)
Definition Disk : Type := option PipelineDir.

(** The world outside the two processes: the disk and the system clock,
    [clock n] being the (n+1)-th reading of [new Date().toISOString()]. *)
Record World : Type := {
  disk : Disk;
  clock : nat → string;
  ticks : nat;
}.

Definition set_disk (d : Disk) (w : World) : World :=
  {| disk := d; clock := clock w; ticks := ticks w |}.

(** [new Date().toISOString()] *)
Definition now (w : World) : string * World :=
  (clock w (ticks w), {| disk := disk w; clock := clock w; ticks := S (ticks w) |}).

(** What the program holds after [JSON.parse(raw) as PipelineState]: the
    cast checks nothing, so the value is a state only when it has the shape
    of one. *)
Inductive Loaded : Type :=
| Shaped (s : PipelineState)
| Unshaped (v : json).

Definition cast (v : json) : Loaded :=
  match state_of_json v with
  | Some s => Shaped s
  | None => Unshaped v
  end.

Inductive exn : Type :=
| Error (message : string).

(** [getDefaultState] *)
Definition getDefaultState (w : World) : PipelineState * World :=
  let '(t, w) := now w in
  ({| currentPhase := "idle";
      taskDescription := EmptyString;
      outputs := ∅;
      history := [];
      createdAt := t;
      updatedAt := t |}, w).

Definition stateFileOf (d : Disk) : option StateFile :=
  p ← d; stateFile p.

Definition outputsDirOf (d : Disk) : option (gmap string OutputFile) :=
  p ← d; outputsDir p.

(** [ensurePipelineDir] *)
Definition ensurePipelineDir (d : Disk) : Disk :=
  let p := match d with
           | Some p => p
           | None => {| stateFile := None; outputsDir := None |}
           end in
  Some match outputsDir p with
       | Some _ => p
       | None => {| stateFile := stateFile p; outputsDir := Some ∅ |}
       end.

(** The body of the [try] of [loadState]:
    [JSON.parse(fs.readFileSync(stateFile, 'utf-8'))]. *)
Definition read_and_parse (f : StateFile) : exn + json :=
  match f with
  | StateUnreadable => inl (Error "readFileSync")
  | StateNotJson => inl (Error "JSON.parse")
  | StateJson v => inr v
  end.

(** [loadState] *)
Definition loadState (w : World) : Loaded * World :=
  match stateFileOf (disk w) with
  | None => let '(s, w) := getDefaultState w in (Shaped s, w)
  | Some f =>
      match read_and_parse f with
      | inr v => (cast v, w)
      | inl _ => let '(s, w) := getDefaultState w in (Shaped s, w)
      end
  end.

(** [fs.writeFileSync(stateFile, JSON.stringify(state, null, 2))] in an
    existing pipeline directory. *)
Definition write_state (v : json) (d : Disk) : Disk :=
  match d with
  | Some p => Some {| stateFile := Some (StateJson v); outputsDir := outputsDir p |}
  | None => None
  end.

(** [saveState].  The state object is updated in place: the caller's
    state is the returned one. *)
Definition saveState (state : PipelineState) (w : World) : PipelineState * World :=
  let w := set_disk (ensurePipelineDir (disk w)) w in
  let '(t, w) := now w in
  let state := set_updatedAt t state in
  (state, set_disk (write_state (state_to_json state) (disk w)) w).

(** [fs.writeFileSync(outputFile, content)] in an existing outputs
    directory. *)
Definition write_output (agentName content : string) (d : Disk) : Disk :=
  match d with
  | Some p =>
      Some {| stateFile := stateFile p;
              outputsDir := (λ o, <[agentName := OutputText content]> o) <$> outputsDir p |}
  | None => None
  end.

(** [saveAgentOutput] *)
Definition saveAgentOutput (agentName content : string) (w : World) : World :=
  set_disk (write_output agentName content (ensurePipelineDir (disk w))) w.

(** [readAgentOutput] *)
Definition readAgentOutput (agentName : string) (w : World) : option string :=
  match outputsDirOf (disk w) ≫= (.!! agentName) with
  | None => None
  | Some OutputUnreadable => None
  | Some (OutputText content) => Some content
  end.

(** [readAllOutputs]: the loop over the [.md] files of the directory,
    [result[agentName] = content], unreadable files skipped. *)
Definition readAllOutputs (w : World) : gmap string string :=
  match outputsDirOf (disk w) with
  | None => ∅
  | Some files =>
      map_fold (λ agentName file result,
                  match file with
                  | OutputText content => Js.set result agentName content
                  | OutputUnreadable => result
                  end) ∅ files
  end.

(** [clearPipelineData] *)
Definition clearPipelineData (w : World) : World :=
  set_disk (ensurePipelineDir None) w.

End Storage.

(** ** pipeline/PipelineManager.ts: the controller *)

Module PipelineManager.

Import AgentConfig Storage.

Inductive PipelineEvent : Type :=
| phaseChanged (phase : string)
| outputSaved (agentName : string)
| pipelineReset.

(** What an operation lets the rest of the extension see. *)
Inductive Effect : Type :=
| Fire (e : PipelineEvent)
| ShowInformationMessage (text : string).

(** The object: [this.state], and what it has emitted so far. *)
Record Manager : Type := {
  state : PipelineState;
  emitted : list Effect;
}.

(** The result of a call: what it returned or raised, the object and the
    world after it. *)
Definition Call : Type := (exn + unit) * Manager * World.

(** [constructor].  [None]: the record on disk has not the shape of a
    state, and the object is outside this model. *)
Definition create (w : World) : option Manager * World :=
  let w := set_disk (ensurePipelineDir (disk w)) w in
  let '(loaded, w) := loadState w in
  (match loaded with
   | Shaped s => Some {| state := s; emitted := [] |}
   | Unshaped _ => None
   end, w).

(** [addHistory] *)
Definition addHistory (phase action : string) (detail : option string)
    (s : PipelineState) (w : World) : PipelineState * World :=
  let '(t, w) := now w in
  (set_history (Js.push (history s)
                  {| Storage.phase := phase; action := action;
                     timestamp := t; detail := detail |}) s, w).

(** [persist]; the write lands (see the disk). *)
Definition persist (s : PipelineState) (w : World) : PipelineState * World :=
  saveState s w.

(** [canStart] *)
Definition canStart (m : Manager) : bool :=
  bool_decide (currentPhase (state m) = "idle")
  || bool_decide (currentPhase (state m) = "completed").

(** [canApprove], [canReject] *)
Definition canApprove (m : Manager) : bool :=
  Js.includes REVIEW_PHASES (currentPhase (state m)).

Definition canReject (m : Manager) : bool := canApprove m.

(** [isAgentActive] *)
Definition isAgentActive (m : Manager) : bool :=
  Js.includes ["planning"; "implementing"; "reviewing"; "testing"]
    (currentPhase (state m)).

(** [getActiveAgent] *)
Definition getActiveAgent (m : Manager) : option string :=
  name <$> getAgentForPhase (currentPhase (state m)).

(** [getOutputs], [getOutput]: read from the outputs directory, not from
    [this.state.outputs]. *)
Definition getOutputs (w : World) : gmap string string := readAllOutputs w.

Definition getOutput (agentName : string) (w : World) : option string :=
  readAgentOutput agentName w.

(** [start] *)
Definition start (taskDescription : string) (m : Manager) (w : World) : Call :=
  if bool_decide (currentPhase (state m) ≠ "idle")
     && bool_decide (currentPhase (state m) ≠ "completed")
  then
    (inl (Error ("Cannot start pipeline: currently in phase " ++ Js.dquote
                 ++ currentPhase (state m) ++ Js.dquote ++ ". Reset first.")),
     m, w)
  else
    let '(s, w) := getDefaultState w in
    let s := set_taskDescription taskDescription s in
    let s := set_currentPhase "planning" s in
    let '(s, w) := addHistory "planning" "started"
                     (Some ("Task: " ++ taskDescription)) s w in
    let '(s, w) := persist s w in
    (inr (),
     {| state := s; emitted := emitted m ++ [Fire (phaseChanged "planning")] |},
     w).

(** [saveCurrentOutput] *)
Definition saveCurrentOutput (content : string) (m : Manager) (w : World) : Call :=
  let phase := currentPhase (state m) in
  match getAgentForPhase phase with
  | None =>
      (inl (Error ("No agent assigned to phase " ++ Js.dquote ++ phase
                   ++ Js.dquote ++ ". Cannot save output.")), m, w)
  | Some agent =>
      let w := saveAgentOutput (outputKey agent) content w in
      let s := set_outputs (Js.set (outputs (state m)) (outputKey agent) content)
                 (state m) in
      let '(s, w) := addHistory phase "output_saved"
                       (Some ("Agent: " ++ name agent)) s w in
      let reviewPhase := reviewPhase agent in
      let s := set_currentPhase reviewPhase s in
      let '(s, w) := addHistory reviewPhase "entered"
                       (Some ("Awaiting review for " ++ name agent)) s w in
      let '(s, w) := persist s w in
      (inr (),
       {| state := s;
          emitted := emitted m ++ [Fire (outputSaved (name agent));
                                   Fire (phaseChanged reviewPhase)] |},
       w)
  end.

(** [approve] *)
Definition approve (m : Manager) (w : World) : Call :=
  let phase := currentPhase (state m) in
  if negb (Js.includes REVIEW_PHASES phase) && bool_decide (phase ≠ "testing")
  then
    (inl (Error ("Cannot approve: not in a review phase (current: " ++ Js.dquote
                 ++ phase ++ Js.dquote ++ ").")), m, w)
  else
    let nextPhase := getNextPhaseAfterApproval phase in
    let '(s, w) := addHistory phase "approved"
                     (Some ("Advancing to " ++ nextPhase)) (state m) w in
    let s := set_currentPhase nextPhase s in
    let '(s, w) := addHistory nextPhase "entered" None s w in
    let '(s, w) := persist s w in
    (inr (),
     {| state := s;
        emitted := emitted m ++ [Fire (phaseChanged nextPhase)]
                   ++ (if bool_decide (nextPhase = "completed")
                       then [ShowInformationMessage
                               "Agent Pipeline: All phases completed!"]
                       else []) |},
     w).

(** [feedback || 'No feedback provided']: [undefined] and the empty string
    are falsy. *)
Definition feedback_or_placeholder (feedback : option string) : string :=
  match feedback with
  | None => "No feedback provided"
  | Some EmptyString => "No feedback provided"
  | Some text => text
  end.

(** [reject] *)
Definition reject (feedback : option string) (m : Manager) (w : World) : Call :=
  let phase := currentPhase (state m) in
  if negb (Js.includes REVIEW_PHASES phase) && bool_decide (phase ≠ "testing")
  then
    (inl (Error ("Cannot reject: not in a review phase (current: " ++ Js.dquote
                 ++ phase ++ Js.dquote ++ ").")), m, w)
  else
    let retryPhase := getRetryPhase phase in
    let '(s, w) := addHistory phase "rejected"
                     (Some (feedback_or_placeholder feedback)) (state m) w in
    let s := set_currentPhase retryPhase s in
    let '(s, w) := addHistory retryPhase "entered"
                     (Some "Retry after rejection") s w in
    let '(s, w) := persist s w in
    (inr (),
     {| state := s; emitted := emitted m ++ [Fire (phaseChanged retryPhase)] |},
     w).

(** [reset] *)
Definition reset (m : Manager) (w : World) : Call :=
  let w := clearPipelineData w in
  let '(s, w) := getDefaultState w in
  let '(s, w) := saveState s w in
  (inr (),
   {| state := s;
      emitted := emitted m ++ [Fire pipelineReset; Fire (phaseChanged "idle")] |},
   w).

(** [reload].  [this.state] becomes whatever [loadState] returns. *)
Definition reload (w : World) : Loaded * World := loadState w.

(** [reload] on the object.  The operations above are those of a controller
    whose state has the shape of its type; a reload that brings in a value
    of another shape leaves this model ([None]). *)
Definition reload_typed (m : Manager) (w : World) : option Call :=
  match reload w with
  | (Shaped s, w) =>
      Some (inr (),
            {| state := s;
               emitted := emitted m ++ [Fire (phaseChanged (currentPhase s))] |},
            w)
  | (Unshaped _, _) => None
  end.

(** The operations of a pipeline run in progress, and a run of them: a call
    that raises leaves the object for the next call, as the command handlers
    of the extension catch the error and show it. *)
Inductive Command : Type :=
| SaveOutput (content : string)
| Approve
| Reject (feedback : option string)
| Reload.

Definition call (c : Command) (m : Manager) (w : World) : option Call :=
  match c with
  | SaveOutput content => Some (saveCurrentOutput content m w)
  | Approve => Some (approve m w)
  | Reject feedback => Some (reject feedback m w)
  | Reload => reload_typed m w
  end.

Fixpoint run (cs : list Command) (m : Manager) (w : World) : option (Manager * World) :=
  match cs with
  | [] => Some (m, w)
  | c :: cs =>
      match call c m w with
      | Some (_, m, w) => run cs m w
      | None => None
      end
  end.

End PipelineManager.

(** ** mcp/server.ts: the tool surface of the worker process

    The server keeps no state of its own: every tool loads the record,
    works on it and saves it.  It declares its own copy of the state
    interface and of the storage functions. *)

Module McpServer.

Import Storage.

(** What a phase property of the server's state object can hold at run
    time: a string, or a value that [phaseMap[agent_name]] found on
    [Object.prototype]. *)
Inductive PhaseValue : Type :=
| PhaseString (s : string)
| PhaseInherited (key : string).

Record HistoryEntry : Type := {
  phase : PhaseValue;
  action : string;
  timestamp : string;
  detail : option string;
}.

Record PipelineState : Type := {
  currentPhase : PhaseValue;
  taskDescription : string;
  outputs : gmap string string;
  history : list HistoryEntry;
  createdAt : string;
  updatedAt : string;
}.

(** The record as the server holds it after [JSON.parse]. *)
Definition entry_of_record (e : Storage.HistoryEntry) : HistoryEntry :=
  {| phase := PhaseString (Storage.phase e);
     action := Storage.action e;
     timestamp := Storage.timestamp e;
     detail := Storage.detail e |}.

Definition of_record (s : Storage.PipelineState) : PipelineState :=
  {| currentPhase := PhaseString (Storage.currentPhase s);
     taskDescription := Storage.taskDescription s;
     outputs := Storage.outputs s;
     history := entry_of_record <$> Storage.history s;
     createdAt := Storage.createdAt s;
     updatedAt := Storage.updatedAt s |}.

(** [JSON.stringify] of a phase property: a function-valued property is
    left out; [Object.prototype], which has no enumerable property, prints
    as the empty object. *)
Definition phase_property (key : string) (v : PhaseValue) : list (string * json) :=
  match v with
  | PhaseString s => [ (key, JString s) ]
  | PhaseInherited k =>
      if bool_decide (k = "__proto__") then [ (key, JObject []) ] else []
  end.

Definition entry_to_json (e : HistoryEntry) : json :=
  JObject (phase_property "phase" (phase e)
           ++ [ ("action", JString (action e));
                ("timestamp", JString (timestamp e)) ]
           ++ match detail e with
              | Some d => [ ("detail", JString d) ]
              | None => []
              end).

Definition state_to_json (s : PipelineState) : json :=
  JObject (phase_property "currentPhase" (currentPhase s)
           ++ [ ("taskDescription", JString (taskDescription s));
                ("outputs", outputs_to_json (outputs s));
                ("history", JArray (entry_to_json <$> history s));
                ("createdAt", JString (createdAt s));
                ("updatedAt", JString (updatedAt s)) ]).

(** [ensureDirs] *)
Definition ensureDirs (d : Disk) : Disk :=
  let p := match d with
           | Some p => p
           | None => {| stateFile := None; outputsDir := None |}
           end in
  Some match outputsDir p with
       | Some _ => p
       | None => {| stateFile := stateFile p; outputsDir := Some ∅ |}
       end.

(** The default record of the server's [loadState]: the two timestamps are
    two readings of the clock. *)
Definition default_state (w : World) : PipelineState * World :=
  let '(c, w) := now w in
  let '(u, w) := now w in
  ({| currentPhase := PhaseString "idle";
      taskDescription := EmptyString;
      outputs := ∅;
      history := [];
      createdAt := c;
      updatedAt := u |}, w).

(** [loadState].  [None] stands for a parsed value that has not the shape
    of a state: what the tools do with it is decided property by property
    by JavaScript and is not part of this model. *)
Definition loadState (w : World) : option PipelineState * World :=
  match stateFileOf (disk w) with
  | None => let '(s, w) := default_state w in (Some s, w)
  | Some f =>
      match read_and_parse f with
      | inr v =>
          match cast v with
          | Shaped s => (Some (of_record s), w)
          | Unshaped _ => (None, w)
          end
      | inl _ => let '(s, w) := default_state w in (Some s, w)
      end
  end.

(** [saveState] *)
Definition saveState (state : PipelineState) (w : World) : PipelineState * World :=
  let w := set_disk (ensureDirs (disk w)) w in
  let '(t, w) := now w in
  let state := {| currentPhase := currentPhase state;
                  taskDescription := taskDescription state;
                  outputs := outputs state;
                  history := history state;
                  createdAt := createdAt state;
                  updatedAt := t |} in
  (state, set_disk (write_state (state_to_json state) (disk w)) w).

(** [phaseMap] of [pipeline_save_output] *)
Definition phaseMap : gmap string string :=
  <["planner" := "plan_review"]>
  (<["implementer" := "impl_review"]>
  (<["reviewer" := "review_done"]>
  (<["test" := "completed"]> ∅))).

(** The value of [nextPhase] when [if (nextPhase)] takes the branch. *)
Definition truthy (p : Js.property string) : option PhaseValue :=
  match p with
  | Js.Own EmptyString => None
  | Js.Own s => Some (PhaseString s)
  | Js.Inherited k => Some (PhaseInherited k)
  | Js.Undefined => None
  end.

(** A phase value inside a template literal, as V8 prints it. *)
Definition display (v : PhaseValue) : string :=
  match v with
  | PhaseString s => s
  | PhaseInherited k =>
      if bool_decide (k = "__proto__") then "[object Object]"
      else "function "
           ++ (if bool_decide (k = "constructor") then "Object" else k)
           ++ "() { [native code] }"
  end.

(** The tool [pipeline_save_output]: the text it answers with and the world
    after it. *)
Definition pipeline_save_output (agent_name output : string) (w : World)
    : option (string * World) :=
  let '(loaded, w) := loadState w in
  match loaded with
  | None => None
  | Some state =>
      (* Save to state *)
      let outputs' := Js.set (outputs state) agent_name output in
      (* Save to file *)
      let w := set_disk (write_output agent_name output (ensureDirs (disk w))) w in
      (* Add history entry *)
      let '(t, w) := now w in
      let history' :=
        Js.push (history state)
          {| phase := currentPhase state; action := "output_saved";
             timestamp := t;
             detail := Some ("Agent " ++ agent_name ++ " saved output") |} in
      (* Determine review phase transition *)
      let nextPhase := truthy (Js.get phaseMap agent_name) in
      let '(currentPhase', history', w) :=
        match nextPhase with
        | Some nextPhase =>
            let '(t, w) := now w in
            (nextPhase,
             Js.push history'
               {| phase := nextPhase; action := "entered"; timestamp := t;
                  detail := Some ("Transitioned after " ++ agent_name
                                  ++ " output") |},
             w)
        | None => (currentPhase state, history', w)
        end in
      let '(state', w) :=
        saveState {| currentPhase := currentPhase';
                     taskDescription := taskDescription state;
                     outputs := outputs';
                     history := history';
                     createdAt := createdAt state;
                     updatedAt := updatedAt state |} w in
      Some ("Output saved for agent " ++ Js.dquote ++ agent_name ++ Js.dquote
            ++ ". Pipeline moved to phase: "
            ++ display (default (currentPhase state') nextPhase) ++ ".",
            w)
  end.

End McpServer.

(** ** mcp/server.ts: the tool [pipeline_get_outputs] *)

Module McpTools.

Import Storage.

(** What the tool answers with: a text; a value that is no string, found
    on [Object.prototype] under the key asked for; or, for all outputs, the
    object whose [JSON.stringify] is the text. *)
Inductive Reply : Type :=
| ReplyText (text : string)
| ReplyInherited (key : string)
| ReplyOutputs (all : gmap string string).

(** The truth value of [o[k]] for an object of strings: the empty string and
    [undefined] are falsy, an inherited function or object is truthy. *)
Definition truthy (p : Js.property string) : bool :=
  match p with
  | Js.Own EmptyString => false
  | Js.Own _ => true
  | Js.Inherited _ => true
  | Js.Undefined => false
  end.

(** The branch [if (args.agent_name)]: the entry of the state when it is
    truthy, else the file.  The read of the file is not inside a [try]: an
    unreadable file makes the tool raise. *)
Definition one_output (state : McpServer.PipelineState) (agent_name : string)
    (w : World) : exn + Reply :=
  match Js.get (McpServer.outputs state) agent_name with
  | Js.Own (String _ _ as output) => inr (ReplyText output)
  | Js.Inherited key => inr (ReplyInherited key)
  | Js.Own EmptyString | Js.Undefined =>
      (* Try reading from file *)
      match outputsDirOf (disk w) ≫= (.!! agent_name) with
      | Some (OutputText fileContent) => inr (ReplyText fileContent)
      | Some OutputUnreadable => inl (Error "readFileSync")
      | None =>
          inr (ReplyText ("No output found for agent " ++ Js.dquote
                          ++ agent_name ++ Js.dquote ++ "."))
      end
  end.

(** The rest of the tool: the outputs of the state, then the files for the
    names that have no truthy entry yet.  Each step touches the entry of its
    own key only, so the order of the two enumerations does not matter. *)
Definition all_outputs (state : McpServer.PipelineState) (w : World)
    : gmap string string :=
  let allOutputs :=
    map_fold (λ key val allOutputs, Js.set allOutputs key val) ∅
      (McpServer.outputs state) in
  match outputsDirOf (disk w) with
  | None => allOutputs
  | Some files =>
      map_fold (λ name file allOutputs,
                  if truthy (Js.get allOutputs name) then allOutputs
                  else match file with
                       | OutputText content => Js.set allOutputs name content
                       | OutputUnreadable => allOutputs
                       end) allOutputs files
  end.

(** The tool [pipeline_get_outputs]; [agent_name] is optional, and the
    empty string is falsy like an omitted one.  [None]: the record on disk
    has not the shape of a state (see [McpServer.loadState]). *)
Definition pipeline_get_outputs (agent_name : option string) (w : World)
    : option ((exn + Reply) * World) :=
  let '(loaded, w) := McpServer.loadState w in
  match loaded with
  | None => None
  | Some state =>
      match agent_name with
      | Some (String _ _ as name) => Some (one_output state name w, w)
      | _ => Some (inr (ReplyOutputs (all_outputs state w)), w)
      end
  end.

End McpTools.

(** ** extension.ts: the command handlers and the inactivity heuristic

    What the user answers to a dialog is an argument of the handler.
    [copyCurrentPrompt] reads the controller and the workspace and writes
    the clipboard only; it is kept as one effect, which succeeds.
    [commandStart], [commandApprove] and [commandReject] are the handlers on
    a controller that nothing else touches while their dialog is open;
    [commandCompletePhase] takes the controller as it is when its input box
    closes. *)

Module Extension.

Import Storage PipelineManager.

Inductive Ui : Type :=
| Warn (text : string)               (* showWarningMessage *)
| Inform (text : string)             (* showInformationMessage *)
| Fail (text : string)               (* showErrorMessage *)
| CopyCurrentPrompt.

Definition Handled : Type := list Ui * Manager * World.

Definition message (e : exn) : string :=
  match e with Error message => message end.


(** [agentPipeline.approve] *)
Definition commandApprove (m : Manager) (w : World) : Handled :=
  if negb (canApprove m) then
    ([Warn "Nothing to approve. Pipeline is not in a review phase."], m, w)
  else
    match approve m w with
    | (inr _, m, w) =>
        let phase := currentPhase (state m) in
        if bool_decide (phase = "completed") then
          ([Inform "Agent Pipeline completed successfully!"], m, w)
        else
          ([Inform ("Approved! Moving to: " ++ phase); CopyCurrentPrompt], m, w)
    | (inl e, m, w) => ([Fail ("Approve failed: " ++ message e)], m, w)
    end.

(** [feedback || undefined] *)
Definition feedback_or_undefined (feedback : option string) : option string :=
  match feedback with
  | Some (String _ _ as text) => Some text
  | _ => None
  end.

(** [agentPipeline.reject] *)
Definition commandReject (feedback : option string) (m : Manager) (w : World)
    : Handled :=
  if negb (canReject m) then
    ([Warn "Nothing to reject. Pipeline is not in a review phase."], m, w)
  else
    match reject (feedback_or_undefined feedback) m w with
    | (inr _, m, w) =>
        ([Inform ("Rejected. Retrying: " ++ currentPhase (state m));
          CopyCurrentPrompt], m, w)
    | (inl e, m, w) => ([Fail ("Reject failed: " ++ message e)], m, w)
    end.

(** [agentPipeline.reset]: [confirm] is the button of the modal warning. *)
Definition commandReset (confirm : option string) (m : Manager) (w : World)
    : Handled :=
  if bool_decide (confirm = Some "Reset") then
    let '(_, m, w) := reset m w in ([Inform "Agent Pipeline reset."], m, w)
  else ([], m, w).

(** [content || `[Phase completed manually by user - no output captured]`] *)
Definition content_or_placeholder (content : option string) : string :=
  match content with
  | Some (String _ _ as text) => text
  | _ => "[Phase completed manually by user - no output captured]"
  end.

(** [agentPipeline.completePhase].  The handler awaits the input box
    between the test of [isAgentActive] and the call of
    [saveCurrentOutput]: [m] and [w] are the controller and the world when
    the command is invoked, [resumed] is what they have become when the box
    closes (a timer, a reload or another command may have run meanwhile). *)
Definition commandCompletePhase (content : option string) (m : Manager)
    (w : World) (resumed : Manager * World) : Handled :=
  if negb (isAgentActive m) then
    ([Warn "No active agent phase to complete."], m, w)
  else
    let '(m, w) := resumed in
    let outputText := content_or_placeholder content in
    match saveCurrentOutput outputText m w with
    | (inr _, m, w) =>
        ([Inform ("Phase completed! Now in: " ++ currentPhase (state m)
                  ++ ". Review and approve or reject.")], m, w)
    | (inl e, m, w) => ([Fail ("Complete phase failed: " ++ message e)], m, w)
    end.

(** *** Auto-complete on file save *)

Definition AUTO_COMPLETE_IGNORE : list string :=
  [ ".agent_pipeline"; ".cursor"; ".git"; "node_modules"; ".next"; "dist";
    "build"; ".vscode" ].

(** [shouldIgnore], for the separator [sep] of the platform. *)
Definition shouldIgnore (sep relativePath : string) : bool :=
  existsb (λ dir, String.prefix (dir ++ sep) relativePath
                  || bool_decide (relativePath = dir))
    AUTO_COMPLETE_IGNORE.





End Extension.

(** ** pipeline/PromptGenerator.ts: the section of previous outputs *)

Module PromptGenerator.

Import Storage.

(** The line feed of the template literals. *)
Definition nl : string := String (Ascii.ascii_of_nat 10) EmptyString.

(** [state.outputs[inputKey]] when it is truthy, as the template literal
    prints it. *)
Definition printed_output (p : Js.property string) : option string :=
  match p with
  | Js.Own EmptyString => None
  | Js.Own output => Some output
  | Js.Inherited key => Some (McpServer.display (McpServer.PhaseInherited key))
  | Js.Undefined => None
  end.

(** [agent?.displayName || inputKey]: a value inherited by [AGENTS] has no
    [displayName]. *)
Definition heading (inputKey : string) : string :=
  match Js.get AgentConfig.AGENTS inputKey with
  | Js.Own agent =>
      match AgentConfig.displayName agent with
      | EmptyString => inputKey
      | displayName => displayName
      end
  | _ => inputKey
  end.

(** [buildPreviousOutputsSection] *)
Definition buildPreviousOutputsSection (state : PipelineState)
    (requiredInputs : list string) : string :=
  if bool_decide (length requiredInputs = 0) then EmptyString
  else
    let '(section, hasOutput) :=
      foldl (λ '(section, hasOutput) inputKey,
               match printed_output (Js.get (outputs state) inputKey) with
               | Some output =>
                   (section ++ "### " ++ heading inputKey ++ " Output" ++ nl
                    ++ output ++ nl ++ nl, true)
               | None => (section, hasOutput)
               end)
            ("## Previous Agent Outputs" ++ nl ++ nl, false) requiredInputs in
    if hasOutput then section else EmptyString.

End PromptGenerator.

(** ** Notions used to state the properties *)

Module Spec.

Import Storage.

(** The words of the specification for "the phase immediately following
    [p] in the order": the element after the first occurrence of [p], when
    there is one. *)
Fixpoint successor_in (order : list string) (p : string) : option string :=
  match order with
  | x :: rest =>
      if bool_decide (x = p) then head rest else successor_in rest p
  | [] => None
  end.

(** The controller and the store agree on the outputs: what [loadState]
    reads has the outputs of [this.state].  It holds once the controller is
    constructed and after each of its operations, as long as no other
    process writes the store. *)
Definition in_sync (m : PipelineManager.Manager) (w : World) : Prop :=
  match (loadState w).1 with
  | Shaped s => outputs s = outputs (PipelineManager.state m)
  | Unshaped _ => False
  end.

(** The default state stamped with the time [t]: phase idle, empty task
    description, no outputs, no history. *)
Definition default_state_at (t : string) : PipelineState :=
  {| currentPhase := "idle"; taskDescription := EmptyString; outputs := ∅;
     history := []; createdAt := t; updatedAt := t |}.

(** The store holds exactly the state of the controller. *)
Definition persisted (m : PipelineManager.Manager) (w : World) : Prop :=
  stateFileOf (disk w) = Some (StateJson (state_to_json (PipelineManager.state m))).

(** The property [k] of a JSON object, and the length of a JSON array. *)
Definition json_property (k : string) (v : json) : option json :=
  match v with
  | JObject properties =>
      found ← list_find (λ kv, kv.1 = k) properties; Some found.2.2
  | _ => None
  end.

Definition json_length (v : json) : option nat :=
  match v with
  | JArray items => Some (length items)
  | _ => None
  end.

(** The state record on disk, as a JSON value. *)
Definition record_on_disk (w : World) : option json :=
  match stateFileOf (disk w) with
  | Some (StateJson v) => Some v
  | _ => None
  end.

Definition property_on_disk (k : string) (w : World) : option json :=
  record_on_disk w ≫= json_property k.

Definition history_length_on_disk (w : World) : option nat :=
  property_on_disk "history" w ≫= json_length.

Definition state_on_disk (w : World) : option PipelineState :=
  record_on_disk w ≫= state_of_json.

(** A history entry without its free text. *)
Definition event_of (e : HistoryEntry) : string * string * string :=
  (phase e, action e, timestamp e).

(** Every operation of the controller, and a session of them: as in [run],
    a call that raises leaves the object for the next call. *)
Inductive Operation : Type :=
| DoStart (taskDescription : string)
| DoSaveOutput (content : string)
| DoApprove
| DoReject (feedback : option string)
| DoReset
| DoReload.

Definition perform (op : Operation) (m : PipelineManager.Manager) (w : World)
    : option PipelineManager.Call :=
  match op with
  | DoStart taskDescription => Some (PipelineManager.start taskDescription m w)
  | DoSaveOutput content => Some (PipelineManager.saveCurrentOutput content m w)
  | DoApprove => Some (PipelineManager.approve m w)
  | DoReject feedback => Some (PipelineManager.reject feedback m w)
  | DoReset => Some (PipelineManager.reset m w)
  | DoReload => PipelineManager.reload_typed m w
  end.

Fixpoint session (ops : list Operation) (m : PipelineManager.Manager) (w : World)
    : option (PipelineManager.Manager * World) :=
  match ops with
  | [] => Some (m, w)
  | op :: ops =>
      match perform op m w with
      | Some (_, m, w) => session ops m w
      | None => None
      end
  end.

(** A call returned normally. *)
Definition returned {A} (r : exn + A) : bool :=
  match r with inr _ => true | inl _ => false end.

(** The outputs an agent works from are there when its phase begins: the
    keys that [outputs] holds in each phase of a pipeline begun by [start]. *)
Definition produced_before (phase : string) : list string :=
  if bool_decide (phase ∈ ["planning"]) then []
  else if bool_decide (phase ∈ ["plan_review"; "implementing"]) then ["planner"]
  else if bool_decide (phase ∈ ["impl_review"; "reviewing"]) then
    ["planner"; "implementer"]
  else ["planner"; "implementer"; "reviewer"].

Definition has_produced (m : PipelineManager.Manager) : Prop :=
  Forall (λ k, is_Some (outputs (PipelineManager.state m) !! k))
    (produced_before (currentPhase (PipelineManager.state m))).

(** The character [c] occurs in [s]. *)
Fixpoint occurs (c : Ascii.ascii) (s : string) : bool :=
  match s with
  | EmptyString => false
  | String x rest => bool_decide (x = c) || occurs c rest
  end.

(** [path.sep]: the slash, and on Windows the backslash. *)
Definition separators : list Ascii.ascii :=
  [ Ascii.ascii_of_nat 47; Ascii.ascii_of_nat 92 ].

(** [agentName] can be the name of a file: it holds no NUL and no path
    separator of either platform, and [agentName + ".md"] fits in the 255
    bytes of a file name.  [path.join(outputsDir, agentName + ".md")] is
    then the entry of that name in the outputs directory. *)
Definition file_name (agentName : string) : bool :=
  forallb (λ c, negb (occurs c agentName)) (Ascii.ascii_of_nat 0 :: separators)
  && bool_decide (String.length agentName ≤ 252)%nat.

(** The state record can be overwritten: there is none yet, or it is a
    file that can be read. *)
Definition record_writable (w : World) : bool :=
  match stateFileOf (disk w) with
  | Some StateUnreadable => false
  | _ => true
  end.

(** The output file of [agentName] can be overwritten: there is none yet,
    or it is a file that can be read. *)
Definition output_writable (agentName : string) (w : World) : bool :=
  match outputsDirOf (disk w) ≫= (.!! agentName) with
  | Some OutputUnreadable => false
  | _ => true
  end.

(** The files that the controller writes can be overwritten: the state
    record and the output files of the four agents. *)
Definition store_writable (w : World) : bool :=
  record_writable w
  && forallb (λ agentName, output_writable agentName w)
       ["planner"; "implementer"; "reviewer"; "test"].


End Spec.

(** ** Sample worlds *)

Module Sample.

Import Storage.

(** A clock whose readings are one second apart. *)
Definition seconds (n : nat) : string :=
  nth n [ "2026-02-01T10:00:00.000Z"; "2026-02-01T10:00:01.000Z";
          "2026-02-01T10:00:02.000Z"; "2026-02-01T10:00:03.000Z";
          "2026-02-01T10:00:04.000Z"; "2026-02-01T10:00:05.000Z" ]
        "2026-02-01T10:01:00.000Z".

Definition world (d : Disk) : World :=
  {| disk := d; clock := seconds; ticks := 0 |}.

(** A workspace without [.agent_pipeline/state.json]. *)
Definition fresh : World :=
  world (Some {| stateFile := None; outputsDir := Some ∅ |}).

(** A store whose state record is the text [{}]. *)
Definition empty_object : World :=
  world (Some {| stateFile := Some (StateJson (JObject [])); outputsDir := Some ∅ |}).

(** A pipeline whose planner is at work. *)
Definition planning_state : PipelineState :=
  {| currentPhase := "planning";
     taskDescription := "Add auth";
     outputs := ∅;
     history := [ {| phase := "planning"; action := "started";
                     timestamp := "2026-02-01T09:00:00.000Z";
                     detail := Some "Task: Add auth" |} ];
     createdAt := "2026-02-01T09:00:00.000Z";
     updatedAt := "2026-02-01T09:00:00.000Z" |}.

Definition planning : World :=
  world (Some {| stateFile := Some (StateJson (state_to_json planning_state));
                 outputsDir := Some ∅ |}).

Definition planning_manager : PipelineManager.Manager :=
  {| PipelineManager.state := planning_state; PipelineManager.emitted := [] |}.

(** A finished pipeline that has kept the plan. *)
Definition completed_state : PipelineState :=
  {| currentPhase := "completed";
     taskDescription := "Add auth";
     outputs := {[ "planner" := "the plan" ]};
     history := [];
     createdAt := "2026-02-01T09:00:00.000Z";
     updatedAt := "2026-02-01T09:30:00.000Z" |}.

Definition completed : World :=
  world (Some {| stateFile := Some (StateJson (state_to_json completed_state));
                 outputsDir := Some {[ "planner" := OutputText "the plan" ]} |}).

Definition completed_manager : PipelineManager.Manager :=
  {| PipelineManager.state := completed_state; PipelineManager.emitted := [] |}.

(** An idle controller. *)
Definition idle_state : PipelineState :=
  {| currentPhase := "idle";
     taskDescription := EmptyString;
     outputs := ∅;
     history := [];
     createdAt := "2026-02-01T09:00:00.000Z";
     updatedAt := "2026-02-01T09:00:00.000Z" |}.

Definition idle_manager : PipelineManager.Manager :=
  {| PipelineManager.state := idle_state; PipelineManager.emitted := [] |}.

(** A store whose planner file is older than the record, and which holds
    a reviewer file that the record does not know. *)
Definition stale_files : World :=
  world (Some {| stateFile := Some (StateJson (state_to_json completed_state));
                 outputsDir :=
                   Some (<[ "planner" := OutputText "an older plan" ]>
                           {[ "reviewer" := OutputText "a review" ]}) |}).

(** A controller whose tester is at work. *)
Definition testing_state : PipelineState :=
  {| currentPhase := "testing";
     taskDescription := "Add auth";
     outputs := {[ "planner" := "the plan" ]};
     history := [];
     createdAt := "2026-02-01T09:00:00.000Z";
     updatedAt := "2026-02-01T09:40:00.000Z" |}.

Definition testing_manager : PipelineManager.Manager :=
  {| PipelineManager.state := testing_state; PipelineManager.emitted := [] |}.

Definition testing : World :=
  world (Some {| stateFile := Some (StateJson (state_to_json testing_state));
                 outputsDir := Some {[ "planner" := OutputText "the plan" ]} |}).

(** A pipeline whose plan awaits review. *)
Definition plan_review_state : PipelineState :=
  {| currentPhase := "plan_review";
     taskDescription := "Add auth";
     outputs := {[ "planner" := "the plan" ]};
     history := [ {| phase := "planning"; action := "started";
                     timestamp := "2026-02-01T09:00:00.000Z";
                     detail := Some "Task: Add auth" |} ];
     createdAt := "2026-02-01T09:00:00.000Z";
     updatedAt := "2026-02-01T09:10:00.000Z" |}.

Definition plan_review_manager : PipelineManager.Manager :=
  {| PipelineManager.state := plan_review_state; PipelineManager.emitted := [] |}.

Definition plan_review : World :=
  world (Some {| stateFile := Some (StateJson (state_to_json plan_review_state));
                 outputsDir := Some {[ "planner" := OutputText "the plan" ]} |}).

End Sample.

(** * Properties *)

(** ** The phase table *)

Section PhaseTable.

Import AgentConfig Spec.

Lemma phase_name_in_order (p : PipelinePhase) : phase_name p ∈ PHASE_ORDER.
Proof. destruct p; unfold PHASE_ORDER; cbn; set_solver. Qed.

Lemma PHASE_ORDER_is_all_phases : PHASE_ORDER = phase_name <$> all_phases.
Proof. reflexivity. Qed.

(** The table of [getNextPhaseAfterApproval] on the nine phases. *)
Lemma next_phase_table :
  getNextPhaseAfterApproval <$> PHASE_ORDER
  = [ "planning"; "plan_review"; "implementing"; "impl_review"; "reviewing";
      "review_done"; "testing"; "completed"; "completed" ].
Proof. reflexivity. Qed.

(** C2, as stated, fails at [idle]: the order of the code starts with
    [idle], so the phase after [idle] is [planning], not [completed]. *)
Lemma C2_idle_is_followed_by_planning :
  getNextPhaseAfterApproval (phase_name idle) = "planning"
  ∧ getNextPhaseAfterApproval (phase_name idle) ≠ "completed".
Proof. split; [reflexivity | discriminate]. Qed.

(** C2, amended: for every string [p], [getNextPhaseAfterApproval p] is the
    element immediately following [p] in the order
    [idle, planning, plan_review, implementing, impl_review, reviewing,
    review_done, testing, completed], and [completed] when [p] is the last
    element or does not occur in it. *)
Theorem C2_next_phase_follows_PHASE_ORDER (p : string) :
  PHASE_ORDER = [ "idle"; "planning"; "plan_review"; "implementing";
                  "impl_review"; "reviewing"; "review_done"; "testing";
                  "completed" ]
  ∧ getNextPhaseAfterApproval p
    = default "completed" (successor_in PHASE_ORDER p).
Proof.
  split; [reflexivity |].
  unfold getNextPhaseAfterApproval, Js.indexOf, PHASE_ORDER.
  cbn [Js.indexOf_from successor_in].
  repeat match goal with
         | |- context [bool_decide (?x = p)] =>
             destruct (decide (x = p)) as [<- | ?];
             [ reflexivity
             | rewrite !(bool_decide_eq_false_2 (x = p)) by assumption ]
         end.
  reflexivity.
Qed.

(** C6, as stated, fails at [reviewing]: a phase that is not one of the
    four retried ones maps to itself, so [reviewing] is returned for the
    input [reviewing]. *)
Lemma C6_reviewing_maps_to_itself :
  getRetryPhase (phase_name reviewing) = "reviewing".
Proof. reflexivity. Qed.

(** C6, amended: [getRetryPhase] maps plan_review to planning and
    impl_review, review_done and testing to implementing, and every other
    string to itself; it never returns testing, and it returns reviewing
    only for the input reviewing. *)
Theorem C6_retry_phase (p : string) :
  getRetryPhase "plan_review" = "planning"
  ∧ getRetryPhase "impl_review" = "implementing"
  ∧ getRetryPhase "review_done" = "implementing"
  ∧ getRetryPhase "testing" = "implementing"
  ∧ (p ∉ ["plan_review"; "impl_review"; "review_done"; "testing"] →
     getRetryPhase p = p)
  ∧ getRetryPhase p ≠ "testing"
  ∧ (getRetryPhase p = "reviewing" → p = "reviewing").
Proof.
  repeat split; try reflexivity; unfold getRetryPhase;
    repeat case_bool_decide; subst; try done.
  all: intros Hp; exfalso;
    repeat (apply not_elem_of_cons in Hp as [? Hp]); congruence.
Qed.

Lemma C6_retry_phase_witness :
(("idle" ∉ ["plan_review"; "impl_review"; "review_done"; "testing"])
   ∧ getRetryPhase "idle" = "idle")
  ∧ (getRetryPhase "reviewing" = "reviewing" ∧ "reviewing" = "reviewing").
Proof.
  assert (Hidle : "idle" ∉ ["plan_review"; "impl_review"; "review_done"; "testing"]).
  { apply (bool_decide_unpack _). vm_compute. exact I. }
  split; split.
  - exact Hidle.
  - apply (C6_retry_phase "idle"). exact Hidle.
  - reflexivity.
  - apply (C6_retry_phase "reviewing"). reflexivity.
Defined.

End PhaseTable.

(** ** The persisted store *)

Section Store.

Import Storage Spec.

(** *** Reading back what was printed *)

Lemma entry_of_to_json (e : HistoryEntry) :
  entry_of_json (entry_to_json e) = Some e.
Proof. destruct e as [p a t [d|]]; reflexivity. Qed.

Lemma history_of_to_json (h : list HistoryEntry) :
  history_of_json (JArray (entry_to_json <$> h)) = Some h.
Proof.
  cbn. apply mapM_Some. induction h as [|e h IH]; constructor.
  - apply entry_of_to_json.
  - exact IH.
Qed.

Lemma outputs_of_to_json (o : gmap string string) :
  outputs_of_json (outputs_to_json o) = Some o.
Proof.
  unfold outputs_of_json, outputs_to_json.
  assert (Hm : mapM (λ kv : string * json, (kv.1,.) <$> as_string kv.2)
                 (prod_map id JString <$> map_to_list o)
               = Some (map_to_list o)).
  { apply mapM_Some. induction (map_to_list o) as [|[k v] l IH]; constructor.
    - reflexivity.
    - exact IH. }
  rewrite Hm. cbn. f_equal. apply list_to_map_to_list.
Qed.

(** A state is read back from its JSON as it was. *)
Lemma state_of_to_json (s : PipelineState) :
  state_of_json (state_to_json s) = Some s.
Proof.
  destruct s as [p t o h c u]. unfold state_of_json, state_to_json.
  cbn [with_keys fmap list_fmap fst snd].
  rewrite bool_decide_eq_true_2 by reflexivity.
  cbn [currentPhase taskDescription outputs history createdAt updatedAt].
  rewrite outputs_of_to_json, history_of_to_json. reflexivity.
Qed.

Lemma cast_state_to_json (s : PipelineState) :
  cast (state_to_json s) = Shaped s.
Proof. unfold cast. by rewrite state_of_to_json. Qed.

(** *** [loadState] and [saveState] *)

Lemma loadState_missing (w : World) :
  stateFileOf (disk w) = None →
  loadState w = (Shaped (getDefaultState w).1, (getDefaultState w).2).
Proof. intros H. unfold loadState. rewrite H. reflexivity. Qed.

Lemma loadState_json (w : World) (v : json) :
  stateFileOf (disk w) = Some (StateJson v) → loadState w = (cast v, w).
Proof. intros H. unfold loadState. rewrite H. reflexivity. Qed.

Lemma loadState_persisted (w : World) (s : PipelineState) :
  stateFileOf (disk w) = Some (StateJson (state_to_json s)) →
  loadState w = (Shaped s, w).
Proof. intros H. by rewrite (loadState_json _ _ H), cast_state_to_json. Qed.

Lemma stateFileOf_ensurePipelineDir (d : Disk) :
  stateFileOf (ensurePipelineDir d) = stateFileOf d.
Proof. destruct d as [[f [o|]]|]; reflexivity. Qed.

Lemma outputsDirOf_ensurePipelineDir (d : Disk) :
  outputsDirOf (ensurePipelineDir d) = Some (default ∅ (outputsDirOf d)).
Proof. destruct d as [[f [o|]]|]; reflexivity. Qed.

Lemma saveState_fst (s : PipelineState) (w : World) :
  (saveState s w).1 = set_updatedAt (clock w (ticks w)) s.
Proof. reflexivity. Qed.

Lemma saveState_stateFile (s : PipelineState) (w : World) :
  stateFileOf (disk (saveState s w).2)
  = Some (StateJson (state_to_json (saveState s w).1)).
Proof. destruct w as [[[f [o|]]|] c n]; reflexivity. Qed.

Lemma saveState_outputsDir (s : PipelineState) (w : World) :
  outputsDirOf (disk (saveState s w).2) = Some (default ∅ (outputsDirOf (disk w))).
Proof. destruct w as [[[f [o|]]|] c n]; reflexivity. Qed.

Lemma saveState_clock (s : PipelineState) (w : World) :
  clock (saveState s w).2 = clock w ∧ ticks (saveState s w).2 = S (ticks w).
Proof. split; reflexivity. Qed.

(** C5, as stated, fails on a record that is valid JSON but no state: the
    text [{}] parses, [loadState] casts the parsed value to [PipelineState]
    without looking at it and returns it, not the default state. *)
Lemma C5_valid_json_of_another_shape_is_returned :
  state_of_json (JObject []) = None
  ∧ stateFileOf (disk Sample.empty_object) = Some (StateJson (JObject []))
  ∧ (loadState Sample.empty_object).1 = Unshaped (JObject [])
  ∧ (loadState Sample.empty_object).1 ≠ Shaped (getDefaultState Sample.empty_object).1.
Proof. repeat split; try reflexivity. discriminate. Qed.

(** C5, amended: [loadState] never raises: it returns a value for every
    content of the store.  When the state record does not exist, cannot be
    read or is not valid JSON, that value is the default state (phase idle,
    empty task description, outputs and history, stamped with the time of
    the call).  A record that is valid JSON is returned as parsed, whether
    or not it has the shape of a PipelineState. *)
Theorem C5_loadState_falls_back_to_default (w : World) :
  match stateFileOf (disk w) with
  | None | Some StateUnreadable | Some StateNotJson =>
      (loadState w).1 = Shaped (default_state_at (clock w (ticks w)))
      ∧ (getDefaultState w).1 = default_state_at (clock w (ticks w))
  | Some (StateJson v) =>
      (loadState w).1 = cast v
  end.
Proof.
  unfold loadState.
  destruct (stateFileOf (disk w)) as [[| |v]|]; cbn;
    first [ reflexivity | split; reflexivity ].
Qed.

(** C7: for every state [s] and every store whose record can be
    overwritten (there is none yet, or it is a file that can be read),
    [saveState] followed by [loadState] yields a state equal to [s] in
    currentPhase, taskDescription, outputs, history and createdAt; its
    updatedAt is the time of the save. *)
Theorem C7_save_then_load (s : PipelineState) (w : World) :
  record_writable w = true →
  ∃ loaded : PipelineState,
    (loadState (saveState s w).2).1 = Shaped loaded
    ∧ currentPhase loaded = currentPhase s
    ∧ taskDescription loaded = taskDescription s
    ∧ outputs loaded = outputs s
    ∧ history loaded = history s
    ∧ createdAt loaded = createdAt s
    ∧ updatedAt loaded = clock w (ticks w)
    ∧ loaded = (saveState s w).1.
Proof.
  intros _. exists (saveState s w).1.
  rewrite (loadState_persisted _ _ (saveState_stateFile s w)).
  repeat split.
Qed.

Lemma C7_save_then_load_witness :
  record_writable Sample.completed = true
  ∧ ∃ loaded : PipelineState,
      (loadState (saveState Sample.planning_state Sample.completed).2).1
      = Shaped loaded
      ∧ currentPhase loaded = "planning"
      ∧ taskDescription loaded = "Add auth"
      ∧ outputs loaded = ∅
      ∧ history loaded = history Sample.planning_state
      ∧ createdAt loaded = "2026-02-01T09:00:00.000Z"
      ∧ updatedAt loaded = "2026-02-01T10:00:00.000Z"
      ∧ loaded = (saveState Sample.planning_state Sample.completed).1.
Proof.
  split; [reflexivity|].
  apply (C7_save_then_load Sample.planning_state Sample.completed).
  reflexivity.
Defined.

(** C8, as stated, fails when no state record exists: each reload builds a
    default state stamped with the time of that reload, and nothing is
    written in between, so two reloads one second apart hold different
    createdAt and updatedAt. *)
Lemma C8_reloads_without_record_differ :
  stateFileOf (disk Sample.fresh) = None
  ∧ disk (PipelineManager.reload Sample.fresh).2 = disk Sample.fresh
  ∧ (PipelineManager.reload (PipelineManager.reload Sample.fresh).2).1
    ≠ (PipelineManager.reload Sample.fresh).1.
Proof. repeat split. discriminate. Qed.

(** C8, amended: [reload] writes nothing, and two reloads in a row with no
    write in between yield the same state whenever the state record exists
    and is valid JSON.  When it does not exist, cannot be read or is not
    valid JSON, both yield the default state (phase idle, empty task
    description, outputs and history), each stamped in createdAt and
    updatedAt with the time of its own reload. *)
Theorem C8_reload_twice (w : World) :
  let first := PipelineManager.reload w in
  let second := PipelineManager.reload first.2 in
  disk first.2 = disk w
  ∧ disk second.2 = disk w
  ∧ match stateFileOf (disk w) with
    | Some (StateJson v) => first.1 = cast v ∧ second.1 = first.1
    | _ =>
        first.1 = Shaped (default_state_at (clock w (ticks w)))
        ∧ second.1 = Shaped (default_state_at (clock w (S (ticks w))))
    end.
Proof.
  unfold PipelineManager.reload, loadState.
  destruct w as [d c n]; cbn -[stateFileOf].
  destruct (stateFileOf d) as [[| |v]|] eqn:Hf; cbn -[stateFileOf];
    rewrite ?Hf; cbn -[stateFileOf]; repeat split.
Qed.

(** *** The output files *)

Lemma Js_set_lookup {A} (o : gmap string A) (k a : string) (v : A) :
  a ≠ "__proto__" →
  Js.set o k v !! a = if decide (k = a) then Some v else o !! a.
Proof.
  intros Ha. unfold Js.set. case_bool_decide as Hk.
  - destruct Hk as [-> _]. by rewrite decide_False.
  - apply lookup_insert.
Qed.

Lemma Js_set_insert {A} (o : gmap string A) (k : string) (v : A) :
  k ≠ "__proto__" → Js.set o k v = <[k:=v]> o.
Proof.
  intros Hk. unfold Js.set. rewrite bool_decide_eq_false_2; [done|].
  by intros [? _].
Qed.

(** [Js.set] never removes a property. *)
Lemma Js_set_dom {A} (o : gmap string A) (k : string) (v : A) :
  dom o ⊆ dom (Js.set o k v).
Proof.
  unfold Js.set. case_bool_decide; [done|]. rewrite dom_insert_L. set_solver.
Qed.

(** What [readAllOutputs] holds for an agent is what [readAgentOutput]
    reads for it. *)
Lemma readAllOutputs_lookup (w : World) (a : string) :
  a ≠ "__proto__" → readAllOutputs w !! a = readAgentOutput a w.
Proof.
  intros Ha. unfold readAllOutputs, readAgentOutput.
  destruct (outputsDirOf (disk w)) as [files|]; cbn; [|apply lookup_empty].
  eapply (map_fold_weak_ind
            (λ result files,
               result !! a = match files !! a with
                             | Some (OutputText content) => Some content
                             | _ => None
                             end)).
  - by rewrite !lookup_empty.
  - intros k file m r Hk IH. rewrite lookup_insert.
    destruct file as [|content].
    + rewrite IH. case_decide; [subst; by rewrite Hk | done].
    + rewrite Js_set_lookup by done. rewrite IH. by case_decide.
Qed.

Lemma agent_name_not_proto (a : string) :
  is_Some (AgentConfig.AGENTS !! a) → a ≠ "__proto__".
Proof. intros [agent H] ->. vm_compute in H. discriminate. Qed.

End Store.

(** ** The controller *)

Section Controller.

Import AgentConfig Storage PipelineManager Spec.

(** *** The guards *)

Lemma getAgentForPhase_table :
  getAgentForPhase <$> PHASE_ORDER
  = [ None; Some planner_agent; None; Some implementer_agent; None;
      Some reviewer_agent; None; Some test_agent; None ].
Proof. reflexivity. Qed.

(** A phase has an agent exactly when it is one of the four work phases. *)
Lemma getAgentForPhase_Some (p : string) (agent : AgentDefinition) :
  getAgentForPhase p = Some agent →
  AgentConfig.phase agent = p
  ∧ AGENTS !! outputKey agent = Some agent
  ∧ name agent = outputKey agent
  ∧ McpServer.phaseMap !! outputKey agent = Some (reviewPhase agent).
Proof.
  unfold getAgentForPhase, Js.get, PHASE_AGENT_MAP.
  repeat (rewrite lookup_insert; case_decide;
          [ subst p;
            let H := fresh in
            intros H; vm_compute in H; injection H as <-;
            solve [vm_compute; repeat split] | ]).
  rewrite lookup_empty. by case_bool_decide.
Qed.

Lemma getAgentForPhase_None (p : string) :
  getAgentForPhase p = None ↔
  p ∉ ["planning"; "implementing"; "reviewing"; "testing"].
Proof.
  unfold getAgentForPhase, Js.get, PHASE_AGENT_MAP. split.
  - intros H Hin.
    repeat (apply elem_of_cons in Hin as [-> | Hin]; [by vm_compute in H |]).
    by apply elem_of_nil in Hin.
  - intros Hp. repeat (apply not_elem_of_cons in Hp as [? Hp]).
    rewrite !lookup_insert_ne, lookup_empty by done. by case_bool_decide.
Qed.

Lemma start_guard (m : Manager) :
  bool_decide (currentPhase (state m) ≠ "idle")
  && bool_decide (currentPhase (state m) ≠ "completed")
  = negb (canStart m).
Proof. unfold canStart. by repeat case_bool_decide. Qed.

Lemma review_guard (p : string) :
  negb (Js.includes REVIEW_PHASES p) && bool_decide (p ≠ "testing") = true ↔
  p ∉ ["plan_review"; "impl_review"; "review_done"; "testing"].
Proof.
  unfold Js.includes, REVIEW_PHASES.
  rewrite andb_true_iff, negb_true_iff, bool_decide_eq_false, bool_decide_eq_true.
  rewrite !not_elem_of_cons. tauto.
Qed.

(** *** What each operation does when its guard refuses *)

Lemma start_refused (task : string) (m : Manager) (w : World) :
  currentPhase (state m) ∉ ["idle"; "completed"] →
  start task m w
  = (inl (Error ("Cannot start pipeline: currently in phase " ++ Js.dquote
                 ++ currentPhase (state m) ++ Js.dquote ++ ". Reset first.")),
     m, w).
Proof.
  intros Hp. unfold start.
  apply not_elem_of_cons in Hp as [H1 Hp].
  apply not_elem_of_cons in Hp as [H2 _].
  by rewrite !bool_decide_eq_true_2.
Qed.

Lemma saveCurrentOutput_refused (content : string) (m : Manager) (w : World) :
  getAgentForPhase (currentPhase (state m)) = None →
  saveCurrentOutput content m w
  = (inl (Error ("No agent assigned to phase " ++ Js.dquote
                 ++ currentPhase (state m) ++ Js.dquote
                 ++ ". Cannot save output.")), m, w).
Proof. intros Hp. unfold saveCurrentOutput. by rewrite Hp. Qed.

Lemma approve_refused (m : Manager) (w : World) :
  currentPhase (state m)
    ∉ ["plan_review"; "impl_review"; "review_done"; "testing"] →
  approve m w
  = (inl (Error ("Cannot approve: not in a review phase (current: "
                 ++ Js.dquote ++ currentPhase (state m) ++ Js.dquote ++ ").")),
     m, w).
Proof. intros Hp%review_guard. unfold approve. by rewrite Hp. Qed.

Lemma reject_refused (feedback : option string) (m : Manager) (w : World) :
  currentPhase (state m)
    ∉ ["plan_review"; "impl_review"; "review_done"; "testing"] →
  reject feedback m w
  = (inl (Error ("Cannot reject: not in a review phase (current: "
                 ++ Js.dquote ++ currentPhase (state m) ++ Js.dquote ++ ").")),
     m, w).
Proof. intros Hp%review_guard. unfold reject. by rewrite Hp. Qed.

(** C4, as stated, fails on the type of the error: the refusals that the
    specification names InvalidTransition and NoActiveAgent are both made by
    [new Error(message)].  A [start] refused in phase planning and a
    [saveCurrentOutput] refused in phase completed raise two values of the
    one class of error there is, which differ in their message only. *)
Lemma C4_refusals_are_plain_errors :
  (start "Another task" Sample.planning_manager Sample.planning).1.1
  = inl (Error ("Cannot start pipeline: currently in phase " ++ Js.dquote
                ++ "planning" ++ Js.dquote ++ ". Reset first."))
  ∧ (saveCurrentOutput "text" Sample.completed_manager Sample.completed).1.1
    = inl (Error ("No agent assigned to phase " ++ Js.dquote ++ "completed"
                  ++ Js.dquote ++ ". Cannot save output."))
  ∧ ∀ e : exn, ∃ message, e = Error message.
Proof.
  split; [reflexivity|]. split; [reflexivity|].
  intros [message]. by exists message.
Qed.

(** C4, amended: each operation checks its guard first and, when the guard
    fails, raises an [Error] whose message names the refused operation and
    the phase, and
    returns with the controller (state, history, emitted events) and the
    world (store, clock) exactly as they were: [start] outside idle and
    completed, [saveCurrentOutput] in a phase without agent, [approve] and
    [reject] in a phase that is neither a review phase nor testing.  The
    error carries no type of its own. *)
Theorem C4_guards_are_all_or_nothing (m : Manager) (w : World) :
  (∀ task, currentPhase (state m) ∉ ["idle"; "completed"] →
     start task m w
     = (inl (Error ("Cannot start pipeline: currently in phase " ++ Js.dquote
                    ++ currentPhase (state m) ++ Js.dquote
                    ++ ". Reset first.")), m, w))
  ∧ (∀ content, getAgentForPhase (currentPhase (state m)) = None →
     saveCurrentOutput content m w
     = (inl (Error ("No agent assigned to phase " ++ Js.dquote
                    ++ currentPhase (state m) ++ Js.dquote
                    ++ ". Cannot save output.")), m, w))
  ∧ (currentPhase (state m)
       ∉ ["plan_review"; "impl_review"; "review_done"; "testing"] →
     approve m w
     = (inl (Error ("Cannot approve: not in a review phase (current: "
                    ++ Js.dquote ++ currentPhase (state m) ++ Js.dquote
                    ++ ").")), m, w)
     ∧ ∀ feedback,
         reject feedback m w
         = (inl (Error ("Cannot reject: not in a review phase (current: "
                        ++ Js.dquote ++ currentPhase (state m) ++ Js.dquote
                        ++ ").")), m, w)).
Proof.
  split; [|split].
  - intros task Hp. exact (start_refused task m w Hp).
  - intros content Hp. exact (saveCurrentOutput_refused content m w Hp).
  - intros Hp. split.
    + exact (approve_refused m w Hp).
    + intros feedback. exact (reject_refused feedback m w Hp).
Qed.

Lemma C4_guards_are_all_or_nothing_witness :
  (∃ message,
     start "Another task" Sample.planning_manager Sample.planning
     = (inl (Error message), Sample.planning_manager, Sample.planning))
  ∧ (∃ message,
       saveCurrentOutput "text" Sample.completed_manager Sample.completed
       = (inl (Error message), Sample.completed_manager, Sample.completed))
  ∧ (∃ message,
       approve Sample.planning_manager Sample.planning
       = (inl (Error message), Sample.planning_manager, Sample.planning))
  ∧ (∃ message,
       reject (Some "needs refactor") Sample.planning_manager Sample.planning
       = (inl (Error message), Sample.planning_manager, Sample.planning)).
Proof.
  assert (H1 : currentPhase (state Sample.planning_manager)
               ∉ ["idle"; "completed"]).
  { apply (bool_decide_unpack _). vm_compute. exact I. }
  assert (H2 : getAgentForPhase (currentPhase (state Sample.completed_manager))
               = None) by reflexivity.
  assert (H3 : currentPhase (state Sample.planning_manager)
               ∉ ["plan_review"; "impl_review"; "review_done"; "testing"]).
  { apply (bool_decide_unpack _). vm_compute. exact I. }
  split; [|split; [|split]]; eexists.
  - exact (proj1 (C4_guards_are_all_or_nothing Sample.planning_manager
                    Sample.planning) "Another task" H1).
  - exact (proj1 (proj2 (C4_guards_are_all_or_nothing Sample.completed_manager
                           Sample.completed)) "text" H2).
  - exact (proj1 (proj2 (proj2 (C4_guards_are_all_or_nothing
                                  Sample.planning_manager Sample.planning)) H3)).
  - exact (proj2 (proj2 (proj2 (C4_guards_are_all_or_nothing
                                  Sample.planning_manager Sample.planning)) H3)
                 (Some "needs refactor")).
Defined.

(** *** What each operation does when its guard lets it through *)

Lemma persisted_in_sync (m : Manager) (w : World) :
  persisted m w → in_sync m w.
Proof.
  unfold persisted, in_sync. intros H. by rewrite (loadState_persisted _ _ H).
Qed.

Lemma start_succeeds (task : string) (m : Manager) (w : World) :
  canStart m = true →
  ∃ m' w',
    start task m w = (inr (), m', w')
    ∧ currentPhase (state m') = "planning"
    ∧ taskDescription (state m') = task
    ∧ outputs (state m') = ∅
    ∧ persisted m' w'
    ∧ outputsDirOf (disk w') = Some (default ∅ (outputsDirOf (disk w))).
Proof.
  intros Hguard. unfold start. rewrite start_guard, Hguard. cbn [negb].
  destruct w as [[[f [o|]]|] c n]; cbn; eexists _, _; repeat split.
Qed.

Lemma saveCurrentOutput_succeeds (content : string) (m : Manager) (w : World)
    (agent : AgentDefinition) :
  getAgentForPhase (currentPhase (state m)) = Some agent →
  ∃ m' w',
    saveCurrentOutput content m w = (inr (), m', w')
    ∧ currentPhase (state m') = reviewPhase agent
    ∧ outputs (state m') = <[outputKey agent := content]> (outputs (state m))
    ∧ persisted m' w'
    ∧ outputsDirOf (disk w')
      = Some (<[outputKey agent := OutputText content]>
                (default ∅ (outputsDirOf (disk w)))).
Proof.
  intros Hagent. unfold saveCurrentOutput. rewrite Hagent.
  apply getAgentForPhase_Some in Hagent as (_ & Hkey & _).
  rewrite (Js_set_insert _ (outputKey agent))
    by (apply agent_name_not_proto; eauto).
  destruct w as [[[f [o|]]|] c n]; cbn; eexists _, _; repeat split.
Qed.

Lemma approve_succeeds (m : Manager) (w : World) :
  currentPhase (state m) ∈ ["plan_review"; "impl_review"; "review_done"; "testing"] →
  ∃ m' w',
    approve m w = (inr (), m', w')
    ∧ currentPhase (state m') = getNextPhaseAfterApproval (currentPhase (state m))
    ∧ outputs (state m') = outputs (state m)
    ∧ persisted m' w'
    ∧ outputsDirOf (disk w') = Some (default ∅ (outputsDirOf (disk w))).
Proof.
  intros Hp. unfold approve.
  destruct (negb _ && _) eqn:Hguard.
  { apply review_guard in Hguard. contradiction. }
  destruct w as [[[f [o|]]|] c n]; cbn; eexists _, _; repeat split.
Qed.

Lemma reject_succeeds (feedback : option string) (m : Manager) (w : World) :
  currentPhase (state m) ∈ ["plan_review"; "impl_review"; "review_done"; "testing"] →
  ∃ m' w',
    reject feedback m w = (inr (), m', w')
    ∧ currentPhase (state m') = getRetryPhase (currentPhase (state m))
    ∧ outputs (state m') = outputs (state m)
    ∧ persisted m' w'
    ∧ outputsDirOf (disk w') = Some (default ∅ (outputsDirOf (disk w))).
Proof.
  intros Hp. unfold reject.
  destruct (negb _ && _) eqn:Hguard.
  { apply review_guard in Hguard. contradiction. }
  destruct w as [[[f [o|]]|] c n]; cbn; eexists _, _; repeat split.
Qed.

(** *** The output files across [start] *)

Lemma readAllOutputs_ext (w w' : World) :
  outputsDirOf (disk w') = Some (default ∅ (outputsDirOf (disk w))) →
  readAllOutputs w' = readAllOutputs w
  ∧ ∀ a, readAgentOutput a w' = readAgentOutput a w.
Proof.
  intros H. unfold readAllOutputs, readAgentOutput. rewrite H.
  destruct (outputsDirOf (disk w)) as [files|]; cbn; [done|].
  split; [apply map_fold_empty | intros a; by rewrite lookup_empty].
Qed.

(** C9: [start] leaves the output files as they are.  For every agent whose
    output file exists when [start] is called in phase idle or completed,
    [getOutput] and [getOutputs] return the content of that file right
    after [start], although [this.state.outputs] is empty again; more
    generally both read after [start] what they read before. *)
Theorem C9_start_keeps_output_files
    (task : string) (m : Manager) (w : World) (a content : string) :
  canStart m = true →
  is_Some (AGENTS !! a) →
  outputsDirOf (disk w) ≫= (.!! a) = Some (OutputText content) →
  ∃ m' w',
    start task m w = (inr (), m', w')
    ∧ outputs (state m') = ∅
    ∧ getOutput a w' = Some content
    ∧ getOutputs w' !! a = Some content
    ∧ getOutputs w' = getOutputs w
    ∧ (∀ b, getOutput b w' = getOutput b w).
Proof.
  intros Hguard Hagent Hfile.
  destruct (start_succeeds task m w Hguard)
    as (m' & w' & Hstart & _ & _ & Hout & _ & Hdir).
  destruct (readAllOutputs_ext w w' Hdir) as [Hall Hone].
  assert (Hread : readAgentOutput a w = Some content).
  { unfold readAgentOutput. by rewrite Hfile. }
  exists m', w'. unfold getOutput, getOutputs.
  repeat split; try done.
  - by rewrite Hone.
  - rewrite readAllOutputs_lookup by by apply agent_name_not_proto.
    by rewrite Hone.
Qed.

Lemma C9_start_keeps_output_files_witness :
  ∃ m' w',
    start "Next task" Sample.completed_manager Sample.completed = (inr (), m', w')
    ∧ outputs (state m') = ∅
    ∧ getOutput "planner" w' = Some "the plan"
    ∧ getOutputs w' !! "planner" = Some "the plan"
    ∧ getOutputs w' = getOutputs Sample.completed
    ∧ (∀ b, getOutput b w' = getOutput b Sample.completed).
Proof.
  apply (C9_start_keeps_output_files "Next task" Sample.completed_manager
           Sample.completed "planner" "the plan").
  - reflexivity.
  - exists planner_agent. reflexivity.
  - reflexivity.
Defined.

(** *** The keys of [outputs] *)

(** C3, as stated, fails for [start]: started again from phase completed,
    the controller replaces its state by the default state, so the key
    [planner] recorded by the finished run is gone. *)
Lemma C3_start_removes_output_keys :
  let result := start "Next task" Sample.completed_manager Sample.completed in
  "planner" ∈ dom (outputs (state Sample.completed_manager))
  ∧ result.1.1 = inr ()
  ∧ ("planner" ∉ dom (outputs (state result.1.2)))
  ∧ outputs (state result.1.2) = ∅.
Proof.
  cbn zeta. split; [|split; [|split]].
  - apply (bool_decide_unpack _). vm_compute. exact I.
  - reflexivity.
  - apply (bool_decide_unpack _). vm_compute. exact I.
  - reflexivity.
Qed.

Lemma loadState_again (w : World) (s : PipelineState) :
  (loadState w).1 = Shaped s →
  ∃ s', (loadState (loadState w).2).1 = Shaped s' ∧ outputs s' = outputs s.
Proof.
  unfold loadState. destruct w as [d c n]; cbn -[stateFileOf].
  destruct (stateFileOf d) as [[| |v]|] eqn:Hf; cbn -[stateFileOf];
    rewrite ?Hf; cbn -[stateFileOf]; intros H; simplify_eq; eauto.
Qed.

(** A controller that has just been constructed agrees with the store. *)
Lemma create_in_sync (w w' : World) (m : Manager) :
  create w = (Some m, w') → in_sync m w'.
Proof.
  unfold create.
  destruct (loadState (set_disk (ensurePipelineDir (disk w)) w))
    as [[s|v] w1] eqn:Hload; intros [= <- <-].
  destruct (loadState_again (set_disk (ensurePipelineDir (disk w)) w) s)
    as (s' & Hs' & Hout).
  { by rewrite Hload. }
  rewrite Hload in Hs'. unfold in_sync. cbn in *. by rewrite Hs'.
Qed.

(** One call of a run in progress: it returns, it keeps the keys of
    [outputs], and the controller and the store still agree. *)
Lemma call_keeps_output_keys (c : Command) (m : Manager) (w : World) :
  in_sync m w →
  ∃ r m' w',
    call c m w = Some (r, m', w')
    ∧ dom (outputs (state m)) ⊆ dom (outputs (state m'))
    ∧ in_sync m' w'.
Proof.
  intros Hsync. destruct c as [content| |feedback|]; cbn [call].
  - destruct (getAgentForPhase (currentPhase (state m))) as [agent|] eqn:Hagent.
    + destruct (saveCurrentOutput_succeeds content m w agent Hagent)
        as (m' & w' & -> & _ & Hout & Hp & _).
      exists (inr ()), m', w'. split; [done|]. split.
      * rewrite Hout, dom_insert_L. set_solver.
      * by apply persisted_in_sync.
    + rewrite (saveCurrentOutput_refused content m w Hagent).
      by eexists _, m, w.
  - destruct (decide (currentPhase (state m)
                        ∈ ["plan_review"; "impl_review"; "review_done"; "testing"]))
      as [Hp|Hp].
    + destruct (approve_succeeds m w Hp) as (m' & w' & -> & _ & Hout & Hs & _).
      exists (inr ()), m', w'. rewrite Hout. by auto using persisted_in_sync.
    + rewrite (approve_refused m w Hp). by eexists _, m, w.
  - destruct (decide (currentPhase (state m)
                        ∈ ["plan_review"; "impl_review"; "review_done"; "testing"]))
      as [Hp|Hp].
    + destruct (reject_succeeds feedback m w Hp)
        as (m' & w' & -> & _ & Hout & Hs & _).
      exists (inr ()), m', w'. rewrite Hout. by auto using persisted_in_sync.
    + rewrite (reject_refused feedback m w Hp). by eexists _, m, w.
  - unfold reload_typed, reload. unfold in_sync in Hsync.
    destruct (loadState w) as [[s|v] w'] eqn:Hload; [|done]. cbn in Hsync.
    eexists _, _, _. split; [reflexivity|]. cbn [state]. split.
    + by rewrite Hsync.
    + unfold in_sync. cbn [state].
      destruct (loadState_again w s) as (s' & Hs' & Hout).
      { by rewrite Hload. }
      rewrite Hload in Hs'. cbn in Hs'. by rewrite Hs'.
Qed.

Lemma call_keeps_record_writable (c : Command) (m : Manager) (w : World) :
  record_writable w = true →
  ∀ r m' w', call c m w = Some (r, m', w') → record_writable w' = true.
Proof.
  intros Hw r m' w'. destruct c as [content| |feedback|]; cbn [call].
  - destruct (getAgentForPhase (currentPhase (state m))) as [agent|] eqn:Hagent.
    + destruct (saveCurrentOutput_succeeds content m w agent Hagent)
        as (m1 & w1 & -> & _ & _ & Hp & _).
      intros [= _ _ <-]. unfold record_writable. by rewrite Hp.
    + rewrite (saveCurrentOutput_refused content m w Hagent). by intros [= _ _ <-].
  - destruct (decide (currentPhase (state m)
                        ∈ ["plan_review"; "impl_review"; "review_done"; "testing"]))
      as [Hp|Hp].
    + destruct (approve_succeeds m w Hp) as (m1 & w1 & -> & _ & _ & Hs & _).
      intros [= _ _ <-]. unfold record_writable. by rewrite Hs.
    + rewrite (approve_refused m w Hp). by intros [= _ _ <-].
  - destruct (decide (currentPhase (state m)
                        ∈ ["plan_review"; "impl_review"; "review_done"; "testing"]))
      as [Hp|Hp].
    + destruct (reject_succeeds feedback m w Hp) as (m1 & w1 & -> & _ & _ & Hs & _).
      intros [= _ _ <-]. unfold record_writable. by rewrite Hs.
    + rewrite (reject_refused feedback m w Hp). by intros [= _ _ <-].
  - unfold reload_typed, reload, loadState, record_writable in *.
    destruct w as [d c0 n]. cbn -[stateFileOf] in *.
    destruct (stateFileOf d) as [[| |v]|] eqn:Hf; cbn -[stateFileOf]; try done.
    + intros [= _ _ <-]. cbn -[stateFileOf]. by rewrite Hf.
    + destruct (cast v); [|done]. intros [= _ _ <-]. cbn -[stateFileOf].
      by rewrite Hf.
    + intros [= _ _ <-]. cbn -[stateFileOf]. by rewrite Hf.
Qed.

(** C3, amended: across every sequence of saveOutput, approve, reject and
    reload of a controller that agrees with its store, on a store that no
    other process writes and whose record can be overwritten, every call
    returns or raises and the outputs map only gains keys: every key that
    was set is still set (a saveOutput may overwrite the key of its agent),
    and the controller still agrees with the store.  [start] is no such
    operation: like a full reset it replaces the outputs by the empty
    map. *)
Theorem C3_outputs_keep_their_keys (cs : list Command) (m : Manager) (w : World) :
  in_sync m w →
  record_writable w = true →
  (∃ m' w',
     run cs m w = Some (m', w')
     ∧ dom (outputs (state m)) ⊆ dom (outputs (state m'))
     ∧ (∀ key, is_Some (outputs (state m) !! key) →
               is_Some (outputs (state m') !! key))
     ∧ in_sync m' w'
     ∧ record_writable w' = true)
  ∧ (∀ task, canStart m = true →
       (start task m w).1.1 = inr ()
       ∧ outputs (state (start task m w).1.2) = ∅).
Proof.
  intros Hsync Hwritable. split.
  - revert m w Hsync Hwritable.
    induction cs as [|c cs IH]; intros m w Hsync Hwritable; cbn [run].
    + by exists m, w.
    + destruct (call_keeps_output_keys c m w Hsync)
        as (r & m1 & w1 & Hcall & Hdom & Hsync1).
      pose proof (call_keeps_record_writable c m w Hwritable _ _ _ Hcall)
        as Hwritable1.
      rewrite Hcall.
      destruct (IH m1 w1 Hsync1 Hwritable1)
        as (m' & w' & -> & Hdom' & Hkeys' & Hsync' & Hwritable').
      exists m', w'. split; [done|]. split; [set_solver|].
      split; [|done].
      intros key Hkey. apply Hkeys'. apply elem_of_dom.
      apply Hdom. by apply elem_of_dom.
  - intros task Hguard.
    destruct (start_succeeds task m w Hguard) as (m' & w' & -> & _ & _ & Hout & _).
    done.
Qed.

Lemma C3_outputs_keep_their_keys_witness :
  outputs (state Sample.plan_review_manager) !! "planner" = Some "the plan"
  ∧ ∃ m' w',
      run [Reject (Some "too vague"); Reload; SaveOutput "a better plan";
           Approve; Reload]
          Sample.plan_review_manager Sample.plan_review = Some (m', w')
      ∧ dom (outputs (state Sample.plan_review_manager))
          ⊆ dom (outputs (state m'))
      ∧ (∀ key, is_Some (outputs (state Sample.plan_review_manager) !! key) →
                is_Some (outputs (state m') !! key))
      ∧ in_sync m' w'
      ∧ record_writable w' = true.
Proof.
  split; [reflexivity|].
  apply (C3_outputs_keep_their_keys
           [Reject (Some "too vague"); Reload; SaveOutput "a better plan";
            Approve; Reload]
           Sample.plan_review_manager Sample.plan_review).
  - unfold in_sync.
    rewrite (loadState_persisted _ Sample.plan_review_state); reflexivity.
  - reflexivity.
Defined.

End Controller.

(** ** The tool surface of the worker process *)

Section Tool.

Import AgentConfig Storage Spec.
Import McpServer (of_record, entry_of_record, phaseMap, pipeline_save_output,
                  PhaseString, PhaseInherited).

(** *** The server's copy of the storage functions *)

Lemma entry_of_record_to_json (e : HistoryEntry) :
  McpServer.entry_to_json (entry_of_record e) = entry_to_json e.
Proof. reflexivity. Qed.

Lemma of_record_to_json (s : PipelineState) :
  McpServer.state_to_json (of_record s) = state_to_json s.
Proof.
  unfold McpServer.state_to_json, state_to_json, of_record. cbn.
  rewrite <- list_fmap_compose.
  do 6 f_equal.
Qed.

Lemma server_saveState_of_record (s : PipelineState) (w : World) :
  McpServer.saveState (of_record s) w
  = (of_record (saveState s w).1, (saveState s w).2).
Proof.
  unfold McpServer.saveState, saveState. cbn.
  change (McpServer.state_to_json ?x)
    with (McpServer.state_to_json (of_record (set_updatedAt (clock w (ticks w)) s))).
  by rewrite of_record_to_json.
Qed.

Lemma server_loadState_persisted (w : World) (s : PipelineState) :
  stateFileOf (disk w) = Some (StateJson (state_to_json s)) →
  McpServer.loadState w = (Some (of_record s), w).
Proof.
  intros H. unfold McpServer.loadState. rewrite H. cbn.
  by rewrite cast_state_to_json.
Qed.

(** Whatever the server loads as a state is a record of strings, and
    loading writes nothing. *)
Lemma server_loadState_Some (w w1 : World) (state : McpServer.PipelineState) :
  McpServer.loadState w = (Some state, w1) →
  ∃ s, state = of_record s ∧ disk w1 = disk w ∧ clock w1 = clock w.
Proof.
  unfold McpServer.loadState.
  destruct (stateFileOf (disk w)) as [[| |v]|]; cbn.
  1,2,4: intros [= <- <-];
    by exists {| currentPhase := "idle"; taskDescription := EmptyString;
                 outputs := ∅; history := [];
                 createdAt := clock w (ticks w);
                 updatedAt := clock w (S (ticks w)) |}.
  destruct (cast v) as [s|]; intros [= <- <-]. by exists s.
Qed.

(** *** What [pipeline_save_output] writes *)

Lemma phaseMap_lookup (a p : string) :
  phaseMap !! a = Some p →
  (a, p) ∈ [ ("planner", "plan_review"); ("implementer", "impl_review");
             ("reviewer", "review_done"); ("test", "completed") ].
Proof.
  unfold phaseMap.
  repeat (rewrite lookup_insert; case_decide;
          [ subst a; intros [= <-]; set_solver | ]).
  by rewrite lookup_empty.
Qed.

Lemma phaseMap_truthy (a p : string) :
  phaseMap !! a = Some p →
  McpServer.truthy (Js.get phaseMap a) = Some (PhaseString p) ∧ a ≠ "__proto__".
Proof.
  intros H. unfold Js.get. rewrite H.
  apply phaseMap_lookup in H.
  repeat (apply elem_of_cons in H as [[= -> ->] | H]; [done|]).
  by apply elem_of_nil in H.
Qed.

(** The tool called by a recognized agent, whatever the current phase. *)
Lemma tool_recognized (a p content : string) (w w1 : World) (s : PipelineState) :
  phaseMap !! a = Some p →
  McpServer.loadState w = (Some (of_record s), w1) →
  ∃ text w' s',
    pipeline_save_output a content w = Some (text, w')
    ∧ stateFileOf (disk w') = Some (StateJson (state_to_json s'))
    ∧ currentPhase s' = p
    ∧ taskDescription s' = taskDescription s
    ∧ outputs s' = <[a := content]> (outputs s)
    ∧ history s'
      = Js.push
          (Js.push (history s)
             {| phase := currentPhase s; action := "output_saved";
                timestamp := clock w1 (ticks w1);
                detail := Some ("Agent " ++ a ++ " saved output") |})
          {| phase := p; action := "entered";
             timestamp := clock w1 (S (ticks w1));
             detail := Some ("Transitioned after " ++ a ++ " output") |}
    ∧ createdAt s' = createdAt s
    ∧ updatedAt s' = clock w1 (S (S (ticks w1)))
    ∧ outputsDirOf (disk w')
      = Some (<[a := OutputText content]> (default ∅ (outputsDirOf (disk w1)))).
Proof.
  intros Hp Hload. unfold pipeline_save_output. rewrite Hload.
  destruct (phaseMap_truthy a p Hp) as [-> Ha].
  rewrite (Js_set_insert _ a) by done.
  set (s' := {| currentPhase := p;
                taskDescription := taskDescription s;
                outputs := <[a := content]> (outputs s);
                history :=
                  Js.push
                    (Js.push (history s)
                       {| phase := currentPhase s; action := "output_saved";
                          timestamp := clock w1 (ticks w1);
                          detail := Some ("Agent " ++ a ++ " saved output") |})
                    {| phase := p; action := "entered";
                       timestamp := clock w1 (S (ticks w1));
                       detail := Some ("Transitioned after " ++ a
                                       ++ " output") |};
                createdAt := createdAt s;
                updatedAt := updatedAt s |}).
  cbn -[McpServer.saveState McpServer.display].
  match goal with
  | |- context [McpServer.saveState ?st ?w2] =>
      replace st with (of_record s')
        by (unfold of_record, s', Js.push; cbn; by rewrite !fmap_app);
      rewrite (server_saveState_of_record s' w2)
  end.
  eexists _, _, _. split; [reflexivity|].
  rewrite saveState_stateFile, saveState_outputsDir.
  destruct w1 as [[[f [o|]]|] c n]; repeat split.
Qed.

(** The tool called with a name that [phaseMap] does not know, own or
    inherited. *)
Lemma tool_unrecognized (a content : string) (w w1 : World) (s : PipelineState) :
  Js.get phaseMap a = Js.Undefined →
  McpServer.loadState w = (Some (of_record s), w1) →
  ∃ text w' s',
    pipeline_save_output a content w = Some (text, w')
    ∧ stateFileOf (disk w') = Some (StateJson (state_to_json s'))
    ∧ currentPhase s' = currentPhase s
    ∧ outputs s' = <[a := content]> (outputs s)
    ∧ history s'
      = Js.push (history s)
          {| phase := currentPhase s; action := "output_saved";
             timestamp := clock w1 (ticks w1);
             detail := Some ("Agent " ++ a ++ " saved output") |}
    ∧ outputsDirOf (disk w')
      = Some (<[a := OutputText content]> (default ∅ (outputsDirOf (disk w1)))).
Proof.
  intros Hp Hload. unfold pipeline_save_output. rewrite Hload, Hp.
  assert (Ha : a ≠ "__proto__").
  { intros ->. vm_compute in Hp. discriminate. }
  rewrite (Js_set_insert _ a) by done.
  set (s' := {| currentPhase := currentPhase s;
                taskDescription := taskDescription s;
                outputs := <[a := content]> (outputs s);
                history :=
                  Js.push (history s)
                    {| phase := currentPhase s; action := "output_saved";
                       timestamp := clock w1 (ticks w1);
                       detail := Some ("Agent " ++ a ++ " saved output") |};
                createdAt := createdAt s;
                updatedAt := updatedAt s |}).
  cbn -[McpServer.saveState McpServer.display].
  match goal with
  | |- context [McpServer.saveState ?st ?w2] =>
      replace st with (of_record s')
        by (unfold of_record, s', Js.push; cbn; by rewrite !fmap_app);
      rewrite (server_saveState_of_record s' w2)
  end.
  eexists _, _, _. split; [reflexivity|].
  rewrite saveState_stateFile, saveState_outputsDir.
  destruct w1 as [[[f [o|]]|] c n]; repeat split.
Qed.

(** *** The controller's [saveCurrentOutput] and the tool, side by side *)

Lemma saveCurrentOutput_result (content : string) (m : PipelineManager.Manager)
    (w : World) (agent : AgentDefinition) :
  getAgentForPhase (currentPhase (PipelineManager.state m)) = Some agent →
  ∃ m' w',
    PipelineManager.saveCurrentOutput content m w = (inr (), m', w')
    ∧ stateFileOf (disk w')
      = Some (StateJson (state_to_json (PipelineManager.state m')))
    ∧ currentPhase (PipelineManager.state m') = reviewPhase agent
    ∧ taskDescription (PipelineManager.state m')
      = taskDescription (PipelineManager.state m)
    ∧ outputs (PipelineManager.state m')
      = <[outputKey agent := content]> (outputs (PipelineManager.state m))
    ∧ history (PipelineManager.state m')
      = Js.push
          (Js.push (history (PipelineManager.state m))
             {| phase := currentPhase (PipelineManager.state m);
                action := "output_saved";
                timestamp := clock w (ticks w);
                detail := Some ("Agent: " ++ name agent) |})
          {| phase := reviewPhase agent; action := "entered";
             timestamp := clock w (S (ticks w));
             detail := Some ("Awaiting review for " ++ name agent) |}
    ∧ createdAt (PipelineManager.state m') = createdAt (PipelineManager.state m)
    ∧ updatedAt (PipelineManager.state m') = clock w (S (S (ticks w)))
    ∧ outputsDirOf (disk w')
      = Some (<[outputKey agent := OutputText content]>
                (default ∅ (outputsDirOf (disk w)))).
Proof.
  intros Hagent. unfold PipelineManager.saveCurrentOutput. rewrite Hagent.
  apply getAgentForPhase_Some in Hagent as (_ & Hkey & _).
  rewrite (Js_set_insert _ (outputKey agent))
    by (apply agent_name_not_proto; eauto).
  destruct w as [[[f [o|]]|] c n]; cbn; eexists _, _; repeat split.
Qed.

(** C1, as stated, fails on the history: from the same store, with the
    planner at work, the controller and the tool record the same two events
    but word their details differently, so the two post-states differ. *)
Lemma C1_history_texts_differ :
  let controller :=
    PipelineManager.saveCurrentOutput "the plan" Sample.planning_manager
      Sample.planning in
  let tool := pipeline_save_output "planner" "the plan" Sample.planning in
  persisted Sample.planning_manager Sample.planning
  ∧ controller.1.1 = inr ()
  ∧ match tool with
    | Some (_, after_tool) =>
        (loadState after_tool).1 ≠ (loadState controller.2).1
        ∧ (loadState controller.2).1 = Shaped (PipelineManager.state controller.1.2)
        ∧ (detail <$> history (PipelineManager.state controller.1.2))
          = [ Some "Task: Add auth"; Some "Agent: planner";
              Some "Awaiting review for planner" ]
        ∧ match (loadState after_tool).1 with
          | Shaped s =>
              (detail <$> history s)
              = [ Some "Task: Add auth"; Some "Agent planner saved output";
                  Some "Transitioned after planner output" ]
          | Unshaped _ => False
          end
    | None => False
    end.
Proof.
  cbn zeta. split; [reflexivity|]. split; [reflexivity|].
  vm_compute. repeat split. discriminate.
Qed.

Lemma AGENTS_lookup (a : string) (agent : AgentDefinition) :
  AGENTS !! a = Some agent →
  getAgentForPhase (AgentConfig.phase agent) = Some agent
  ∧ outputKey agent = a
  ∧ name agent = a
  ∧ phaseMap !! a = Some (reviewPhase agent).
Proof.
  unfold AGENTS.
  repeat (rewrite lookup_insert; case_decide;
          [ subst a; intros [= <-]; by repeat split | ]).
  by rewrite lookup_empty.
Qed.

(** C1, amended: for every agent among planner, implementer, reviewer and
    test and every content, from a store that holds the controller's state
    with that agent's work phase current and in which the agent's output
    file can be overwritten, the tool [pipeline_save_output] and the
    controller's [saveCurrentOutput] both succeed and leave the same
    currentPhase (the agent's review phase), task description, outputs map
    (the content under the agent's name), timestamps and output files (the
    content in the agent's file).  Each keeps the history that was there
    and appends two entries to it, with the same phase, action and
    timestamp on both paths; the detail texts differ: [Agent: a] and
    [Awaiting review for a] in the controller, [Agent a saved output] and
    [Transitioned after a output] in the tool. *)
Theorem C1_tool_and_controller_agree_up_to_history_text
    (a content : string) (agent : AgentDefinition)
    (m : PipelineManager.Manager) (w : World) :
  AGENTS !! a = Some agent →
  currentPhase (PipelineManager.state m) = AgentConfig.phase agent →
  persisted m w →
  output_writable a w = true →
  ∃ m' after_controller text after_tool s_tool,
    PipelineManager.saveCurrentOutput content m w = (inr (), m', after_controller)
    ∧ pipeline_save_output a content w = Some (text, after_tool)
    ∧ loadState after_controller
      = (Shaped (PipelineManager.state m'), after_controller)
    ∧ loadState after_tool = (Shaped s_tool, after_tool)
    ∧ currentPhase s_tool = reviewPhase agent
    ∧ currentPhase (PipelineManager.state m') = reviewPhase agent
    ∧ taskDescription s_tool = taskDescription (PipelineManager.state m')
    ∧ outputs s_tool = outputs (PipelineManager.state m')
    ∧ outputs s_tool = <[a := content]> (outputs (PipelineManager.state m))
    ∧ createdAt s_tool = createdAt (PipelineManager.state m')
    ∧ updatedAt s_tool = updatedAt (PipelineManager.state m')
    ∧ outputsDirOf (disk after_tool) = outputsDirOf (disk after_controller)
    ∧ readAgentOutput a after_tool = Some content
    ∧ readAgentOutput a after_controller = Some content
    ∧ history (PipelineManager.state m')
      = Js.push
          (Js.push (history (PipelineManager.state m))
             {| phase := AgentConfig.phase agent; action := "output_saved";
                timestamp := clock w (ticks w);
                detail := Some ("Agent: " ++ a) |})
          {| phase := reviewPhase agent; action := "entered";
             timestamp := clock w (S (ticks w));
             detail := Some ("Awaiting review for " ++ a) |}
    ∧ history s_tool
      = Js.push
          (Js.push (history (PipelineManager.state m))
             {| phase := AgentConfig.phase agent; action := "output_saved";
                timestamp := clock w (ticks w);
                detail := Some ("Agent " ++ a ++ " saved output") |})
          {| phase := reviewPhase agent; action := "entered";
             timestamp := clock w (S (ticks w));
             detail := Some ("Transitioned after " ++ a ++ " output") |}
    ∧ event_of <$> history s_tool
      = event_of <$> history (PipelineManager.state m').
Proof.
  intros Hagent Hphase Hpersisted _.
  destruct (AGENTS_lookup a agent Hagent) as (Hfor & Hkey & Hname & Hmap).
  rewrite <- Hphase in Hfor.
  destruct (saveCurrentOutput_result content m w agent Hfor)
    as (m' & wc & Hc & Hfile_c & Hp_c & Ht_c & Ho_c & Hh_c & Hca_c & Hua_c & Hd_c).
  destruct (tool_recognized a (reviewPhase agent) content w w
              (PipelineManager.state m) Hmap
              (server_loadState_persisted w _ Hpersisted))
    as (text & wt & st & Ht & Hfile_t & Hp_t & Ht_t & Ho_t & Hh_t & Hca_t & Hua_t & Hd_t).
  exists m', wc, text, wt, st.
  rewrite (loadState_persisted _ _ Hfile_c), (loadState_persisted _ _ Hfile_t).
  unfold readAgentOutput.
  rewrite Hp_c, Hp_t, Ht_c, Ht_t, Ho_c, Ho_t, Hh_c, Hh_t, Hca_c, Hca_t,
    Hua_c, Hua_t, Hd_c, Hd_t, Hkey, Hname, Hphase.
  cbn [mbind option_bind]. rewrite lookup_insert_eq.
  unfold Js.push. repeat split; try done.
  by rewrite !fmap_app.
Qed.

Lemma C1_tool_and_controller_agree_up_to_history_text_witness :
  ∃ m' after_controller text after_tool s_tool,
    PipelineManager.saveCurrentOutput "the plan" Sample.planning_manager
      Sample.planning = (inr (), m', after_controller)
    ∧ pipeline_save_output "planner" "the plan" Sample.planning
      = Some (text, after_tool)
    ∧ loadState after_controller
      = (Shaped (PipelineManager.state m'), after_controller)
    ∧ loadState after_tool = (Shaped s_tool, after_tool)
    ∧ currentPhase s_tool = "plan_review"
    ∧ currentPhase (PipelineManager.state m') = "plan_review"
    ∧ taskDescription s_tool = taskDescription (PipelineManager.state m')
    ∧ outputs s_tool = outputs (PipelineManager.state m')
    ∧ outputs s_tool = <["planner" := "the plan"]> ∅
    ∧ createdAt s_tool = createdAt (PipelineManager.state m')
    ∧ updatedAt s_tool = updatedAt (PipelineManager.state m')
    ∧ outputsDirOf (disk after_tool) = outputsDirOf (disk after_controller)
    ∧ readAgentOutput "planner" after_tool = Some "the plan"
    ∧ readAgentOutput "planner" after_controller = Some "the plan"
    ∧ history (PipelineManager.state m')
      = Js.push
          (Js.push (history Sample.planning_state)
             {| phase := "planning"; action := "output_saved";
                timestamp := "2026-02-01T10:00:00.000Z";
                detail := Some "Agent: planner" |})
          {| phase := "plan_review"; action := "entered";
             timestamp := "2026-02-01T10:00:01.000Z";
             detail := Some "Awaiting review for planner" |}
    ∧ history s_tool
      = Js.push
          (Js.push (history Sample.planning_state)
             {| phase := "planning"; action := "output_saved";
                timestamp := "2026-02-01T10:00:00.000Z";
                detail := Some "Agent planner saved output" |})
          {| phase := "plan_review"; action := "entered";
             timestamp := "2026-02-01T10:00:01.000Z";
             detail := Some "Transitioned after planner output" |}
    ∧ event_of <$> history s_tool
      = event_of <$> history (PipelineManager.state m').
Proof.
  apply (C1_tool_and_controller_agree_up_to_history_text
           "planner" "the plan" planner_agent
           Sample.planning_manager Sample.planning); reflexivity.
Defined.

(** *** The tool has no phase guard *)

(** For a recognized agent the tool succeeds in every phase, and from any
    store whose record is absent, unreadable or a state: it moves the
    pipeline to the review phase of that agent. *)
Lemma tool_applies_no_phase_guard (a p content : string) (w w1 : World)
    (state : McpServer.PipelineState) :
  phaseMap !! a = Some p →
  McpServer.loadState w = (Some state, w1) →
  ∃ text w' s',
    pipeline_save_output a content w = Some (text, w')
    ∧ loadState w' = (Shaped s', w')
    ∧ currentPhase s' = p
    ∧ outputs s' !! a = Some content
    ∧ readAgentOutput a w' = Some content.
Proof.
  intros Hp Hload.
  destruct (server_loadState_Some _ _ _ Hload) as (s & -> & _).
  destruct (tool_recognized a p content w w1 s Hp Hload)
    as (text & w' & s' & Htool & Hfile & Hphase & _ & Hout & _ & _ & _ & Hdir).
  exists text, w', s'. rewrite (loadState_persisted _ _ Hfile), Hout.
  unfold readAgentOutput. rewrite Hdir. cbn. by rewrite !lookup_insert_eq.
Qed.

(** A name that [phaseMap] does not know, own or inherited, is recorded
    with one history entry and leaves the phase as it was. *)
Lemma tool_keeps_phase_for_unknown_name (a content : string) (w w1 : World)
    (state : McpServer.PipelineState) :
  a ∉ (["planner"; "implementer"; "reviewer"; "test"] ++ Js.Object_prototype)%list →
  McpServer.loadState w = (Some state, w1) →
  ∃ text w' s s',
    state = of_record s
    ∧ pipeline_save_output a content w = Some (text, w')
    ∧ loadState w' = (Shaped s', w')
    ∧ currentPhase s' = currentPhase s
    ∧ outputs s' !! a = Some content
    ∧ length (history s') = S (length (history s)).
Proof.
  intros Ha Hload.
  destruct (server_loadState_Some _ _ _ Hload) as (s & -> & _).
  assert (Hget : Js.get phaseMap a = Js.Undefined).
  { apply not_elem_of_app in Ha as [Hown Hproto].
    repeat (apply not_elem_of_cons in Hown as [? Hown]).
    unfold Js.get, phaseMap.
    rewrite !lookup_insert_ne, lookup_empty by done.
    by rewrite bool_decide_eq_false_2. }
  destruct (tool_unrecognized a content w w1 s Hget Hload)
    as (text & w' & s' & Htool & Hfile & Hphase & Hout & Hhist & _).
  exists text, w', s, s'. rewrite (loadState_persisted _ _ Hfile), Hout, Hhist.
  unfold Js.push. rewrite lookup_insert_eq, length_app. cbn.
  repeat split; try done. lia.
Qed.

(** C10 fails in the code for a name that the literal [phaseMap] inherits
    from [Object.prototype].  With [agent_name = "constructor"], outside the
    four agents, [phaseMap[agent_name]] is the function [Object], which is
    truthy: the tool assigns it to [state.currentPhase] and pushes a second
    history entry, and [JSON.stringify] then drops the function-valued
    properties.  The record left on disk has no currentPhase (the phase is
    not left unchanged), its history has grown by two entries, not one, and
    it is no longer a PipelineState. *)
Theorem C10_inherited_name_overwrites_phase :
  let tool := pipeline_save_output "constructor" "notes" Sample.planning in
  ("constructor" ∉ ["planner"; "implementer"; "reviewer"; "test"])
  ∧ state_on_disk Sample.planning = Some Sample.planning_state
  ∧ property_on_disk "currentPhase" Sample.planning = Some (JString "planning")
  ∧ history_length_on_disk Sample.planning = Some 1
  ∧ match tool with
    | Some (text, after) =>
        property_on_disk "currentPhase" after = None
        ∧ history_length_on_disk after = Some 3
        ∧ property_on_disk "taskDescription" after = Some (JString "Add auth")
        ∧ state_on_disk after = None
        ∧ readAgentOutput "constructor" after = Some "notes"
    | None => False
    end.
Proof.
  cbn zeta. split.
  { apply (bool_decide_unpack _). vm_compute. exact I. }
  vm_compute. repeat split.
Qed.

End Tool.

(** ** Two runs of the pipeline *)

Section Scenarios.

Import Storage PipelineManager.

(** [start("Add auth")], [saveOutput("plan text")], [approve()], then a
    [reject] that the implementing phase refuses. *)
Example add_auth_until_implementing :
  let '(r1, m1, w1) := start "Add auth" Sample.idle_manager Sample.fresh in
  let '(r2, m2, w2) := saveCurrentOutput "plan text" m1 w1 in
  let '(r3, m3, w3) := approve m2 w2 in
  let '(r4, m4, w4) := reject (Some "needs refactor") m3 w3 in
  r1 = inr () ∧ currentPhase (state m1) = "planning"
  ∧ r2 = inr () ∧ currentPhase (state m2) = "plan_review"
  ∧ outputs (state m2) !! "planner" = Some "plan text"
  ∧ r3 = inr () ∧ currentPhase (state m3) = "implementing"
  ∧ is_Some (match r4 with inl e => Some e | inr _ => None end)
  ∧ m4 = m3 ∧ w4 = w3.
Proof. vm_compute. repeat split. by eexists. Qed.

(** From testing, [saveOutput("all green")] completes the pipeline; then
    [approve] is refused and [start] is legal again. *)
Example all_green :
  let testing_manager :=
    {| state := set_currentPhase "testing" Sample.planning_state;
       emitted := [] |} in
  let '(r1, m1, w1) := saveCurrentOutput "all green" testing_manager Sample.planning in
  let '(r2, m2, w2) := approve m1 w1 in
  let '(r3, m3, w3) := start "Next task" m2 w2 in
  r1 = inr () ∧ currentPhase (state m1) = "completed"
  ∧ is_Some (match r2 with inl e => Some e | inr _ => None end)
  ∧ m2 = m1
  ∧ r3 = inr () ∧ currentPhase (state m3) = "planning"
  ∧ readAgentOutput "test" w3 = Some "all green".
Proof. vm_compute. repeat split. by eexists. Qed.

End Scenarios.

(** * Further properties of the code *)

(** ** The store: files and directories *)

Section StoreFiles.

Import Storage Spec.






(** X4: [saveState] overwrites the whole record and leaves the output
    files alone: on a store whose record can be overwritten, after two
    saves in a row the record on disk is the second state (stamped with the
    time of its save), nothing of the first is merged into it, and every
    output file reads as before. *)
Theorem X4_saveState_last_write_wins
    (first second : PipelineState) (w : World) (agentName : string) :
  record_writable w = true →
  let after := (saveState second (saveState first w).2).2 in
  state_on_disk after = Some (set_updatedAt (clock w (S (ticks w))) second)
  ∧ readAgentOutput agentName after = readAgentOutput agentName w
  ∧ readAllOutputs after = readAllOutputs w.
Proof.
  intros _. cbn zeta.
  set (w1 := (saveState first w).2).
  assert (Hrecord : state_on_disk (saveState second w1).2
                    = Some (set_updatedAt (clock w (S (ticks w))) second)).
  { unfold state_on_disk, record_on_disk. rewrite saveState_stateFile. cbn.
    by rewrite state_of_to_json. }
  assert (Hdir : outputsDirOf (disk (saveState second w1).2)
                 = Some (default ∅ (outputsDirOf (disk w)))).
  { rewrite saveState_outputsDir. unfold w1. by rewrite saveState_outputsDir. }
  destruct (readAllOutputs_ext w _ Hdir) as [Hall Hone].
  by rewrite Hrecord, Hall, Hone.
Qed.

Lemma X4_saveState_last_write_wins_witness :
  let after :=
    (saveState Sample.idle_state
       (saveState Sample.planning_state Sample.completed).2).2 in
  state_on_disk after
  = Some (set_updatedAt "2026-02-01T10:00:01.000Z" Sample.idle_state)
  ∧ readAgentOutput "planner" after = Some "the plan"
  ∧ readAllOutputs after = readAllOutputs Sample.completed.
Proof.
  split; [|split].
  - apply (X4_saveState_last_write_wins Sample.planning_state Sample.idle_state
             Sample.completed "planner"). reflexivity.
  - reflexivity.
  - apply (X4_saveState_last_write_wins Sample.planning_state Sample.idle_state
             Sample.completed "planner"). reflexivity.
Defined.

(** X5: [ensurePipelineDir] only creates what is missing: calling it again
    changes nothing, the state record is the one that was there, and every
    output file reads as before. *)
Theorem X5_ensurePipelineDir_loses_nothing (w : World) (agentName : string) :
  let ensured := set_disk (ensurePipelineDir (disk w)) w in
  ensurePipelineDir (disk ensured) = disk ensured
  ∧ stateFileOf (disk ensured) = stateFileOf (disk w)
  ∧ (loadState ensured).1 = (loadState w).1
  ∧ readAgentOutput agentName ensured = readAgentOutput agentName w
  ∧ readAllOutputs ensured = readAllOutputs w.
Proof.
  cbn zeta. destruct w as [[[f [o|]]|] c n]; repeat split;
    try (unfold readAllOutputs; cbn; by rewrite map_fold_empty).
  all: unfold loadState; cbn; by destruct f as [[| |v]|].
Qed.

End StoreFiles.

(** ** The controller: guards, history and sessions *)

Section ControllerSessions.

Import AgentConfig Storage PipelineManager Spec.

Lemma canStart_false (m : Manager) :
  canStart m = false → currentPhase (state m) ∉ ["idle"; "completed"].
Proof.
  unfold canStart. intros H%orb_false_iff. destruct H as [H1 H2].
  apply bool_decide_eq_false in H1, H2.
  intros Hin. apply elem_of_cons in Hin as [?|Hin]; [done|].
  apply elem_of_cons in Hin as [?|Hin]; [done|]. by apply elem_of_nil in Hin.
Qed.

Lemma isAgentActive_agent (m : Manager) :
  isAgentActive m = bool_decide (is_Some (getAgentForPhase (currentPhase (state m)))).
Proof.
  unfold isAgentActive, Js.includes.
  destruct (getAgentForPhase (currentPhase (state m))) as [agent|] eqn:Hagent.
  - rewrite (bool_decide_eq_true_2 (is_Some _)) by eauto.
    apply bool_decide_eq_true_2.
    destruct (decide (currentPhase (state m)
                        ∈ ["planning"; "implementing"; "reviewing"; "testing"]))
      as [?|Hnot]; [done|].
    apply getAgentForPhase_None in Hnot. congruence.
  - rewrite (bool_decide_eq_false_2 (is_Some _)) by (by intros [? ?]).
    apply bool_decide_eq_false_2. by apply getAgentForPhase_None.
Qed.

Lemma review_guard_false (p : string) :
  negb (Js.includes REVIEW_PHASES p) && bool_decide (p ≠ "testing") = false ↔
  p ∈ ["plan_review"; "impl_review"; "review_done"; "testing"].
Proof.
  rewrite <- not_true_iff_false, review_guard.
  split; [|by intros ? ?].
  intros H. by destruct (decide (p ∈ ["plan_review"; "impl_review";
                                       "review_done"; "testing"])).
Qed.

Lemma review_guard_predicate (m : Manager) :
  negb (negb (Js.includes REVIEW_PHASES (currentPhase (state m)))
        && bool_decide (currentPhase (state m) ≠ "testing"))
  = canApprove m || bool_decide (currentPhase (state m) = "testing").
Proof.
  unfold canApprove. destruct (Js.includes _ _); cbn; [done|].
  by repeat case_bool_decide.
Qed.

(** X6: the guard inside each operation against the predicate the user
    interface asks, on a store whose record and agent files can be
    overwritten: [start] returns exactly when [canStart] holds and
    [saveCurrentOutput] exactly when [isAgentActive] holds (that is, when
    [getActiveAgent] names an agent); [approve] and [reject] return when
    [canApprove] holds and also in phase testing, where [canApprove] and
    [canReject] are false. *)
Theorem X6_guards_against_predicates
    (task content : string) (feedback : option string) (m : Manager) (w : World) :
  store_writable w = true →
  returned (start task m w).1.1 = canStart m
  ∧ returned (saveCurrentOutput content m w).1.1 = isAgentActive m
  ∧ isAgentActive m = bool_decide (is_Some (getActiveAgent m))
  ∧ returned (approve m w).1.1
    = canApprove m || bool_decide (currentPhase (state m) = "testing")
  ∧ returned (reject feedback m w).1.1
    = canReject m || bool_decide (currentPhase (state m) = "testing").
Proof.
  intros _. split; [|split; [|split; [|split]]].
  - destruct (canStart m) eqn:Hstart.
    + by destruct (start_succeeds task m w Hstart) as (m' & w' & -> & _).
    + by rewrite (start_refused task m w (canStart_false m Hstart)).
  - rewrite isAgentActive_agent.
    destruct (getAgentForPhase (currentPhase (state m))) as [agent|] eqn:Hagent.
    + destruct (saveCurrentOutput_succeeds content m w agent Hagent)
        as (m' & w' & -> & _).
      by rewrite bool_decide_eq_true_2 by eauto.
    + rewrite (saveCurrentOutput_refused content m w Hagent).
      by rewrite bool_decide_eq_false_2 by (by intros [? ?]).
  - rewrite isAgentActive_agent. unfold getActiveAgent.
    apply bool_decide_ext. by rewrite fmap_is_Some.
  - rewrite <- review_guard_predicate. unfold approve.
    destruct (negb _ && _); [done|].
    by destruct w as [[[f [o|]]|] c n].
  - unfold canReject. rewrite <- review_guard_predicate. unfold reject.
    destruct (negb _ && _); [done|].
    by destruct w as [[[f [o|]]|] c n].
Qed.

Lemma X6_guards_against_predicates_witness :
  store_writable Sample.testing = true
  ∧ returned (start "Another task" Sample.testing_manager Sample.testing).1.1
    = false
  ∧ returned (saveCurrentOutput "all green" Sample.testing_manager
                Sample.testing).1.1 = true
  ∧ canApprove Sample.testing_manager = false
  ∧ returned (approve Sample.testing_manager Sample.testing).1.1 = true
  ∧ returned (reject None Sample.testing_manager Sample.testing).1.1 = true.
Proof.
  pose proof (X6_guards_against_predicates "Another task" "all green" None
                Sample.testing_manager Sample.testing eq_refl)
    as (Hstart & Hsave & _ & Happrove & Hreject).
  split; [reflexivity|]. split; [by rewrite Hstart|].
  split; [by rewrite Hsave|]. split; [reflexivity|].
  split; [by rewrite Happrove | by rewrite Hreject].
Defined.

(** What [approve] and [reject] leave when they return. *)
Lemma approve_result (m : Manager) (w : World) :
  currentPhase (state m) ∈ ["plan_review"; "impl_review"; "review_done"; "testing"] →
  ∃ m' w',
    approve m w = (inr (), m', w')
    ∧ persisted m' w'
    ∧ currentPhase (state m') = getNextPhaseAfterApproval (currentPhase (state m))
    ∧ taskDescription (state m') = taskDescription (state m)
    ∧ outputs (state m') = outputs (state m)
    ∧ createdAt (state m') = createdAt (state m)
    ∧ history (state m')
      = Js.push
          (Js.push (history (state m))
             {| phase := currentPhase (state m); action := "approved";
                timestamp := clock w (ticks w);
                detail := Some ("Advancing to "
                                ++ getNextPhaseAfterApproval
                                     (currentPhase (state m))) |})
          {| phase := getNextPhaseAfterApproval (currentPhase (state m));
             action := "entered"; timestamp := clock w (S (ticks w));
             detail := None |}.
Proof.
  intros Hp%review_guard_false. unfold approve. rewrite Hp.
  destruct w as [[[f [o|]]|] c n]; cbn; eexists _, _; repeat split.
Qed.

Lemma reject_result (feedback : option string) (m : Manager) (w : World) :
  currentPhase (state m) ∈ ["plan_review"; "impl_review"; "review_done"; "testing"] →
  ∃ m' w',
    reject feedback m w = (inr (), m', w')
    ∧ persisted m' w'
    ∧ currentPhase (state m') = getRetryPhase (currentPhase (state m))
    ∧ taskDescription (state m') = taskDescription (state m)
    ∧ outputs (state m') = outputs (state m)
    ∧ createdAt (state m') = createdAt (state m)
    ∧ history (state m')
      = Js.push
          (Js.push (history (state m))
             {| phase := currentPhase (state m); action := "rejected";
                timestamp := clock w (ticks w);
                detail := Some (feedback_or_placeholder feedback) |})
          {| phase := getRetryPhase (currentPhase (state m));
             action := "entered"; timestamp := clock w (S (ticks w));
             detail := Some "Retry after rejection" |}.
Proof.
  intros Hp%review_guard_false. unfold reject. rewrite Hp.
  destruct w as [[[f [o|]]|] c n]; cbn; eexists _, _; repeat split.
Qed.

Lemma agent_cases (p : string) (agent : AgentDefinition) :
  getAgentForPhase p = Some agent →
  (p, agent) ∈ [ ("planning", planner_agent); ("implementing", implementer_agent);
                 ("reviewing", reviewer_agent); ("testing", test_agent) ].
Proof.
  intros H.
  destruct (decide (p ∈ ["planning"; "implementing"; "reviewing"; "testing"]))
    as [Hin|Hnot].
  - repeat (apply elem_of_cons in Hin as [-> | Hin];
            [ vm_compute in H; injection H as <-; set_solver | ]).
    by apply elem_of_nil in Hin.
  - apply getAgentForPhase_None in Hnot. congruence.
Qed.

(** X7: on a store whose record and agent files can be overwritten,
    [saveCurrentOutput], [approve] and [reject] never rewrite the history:
    the history after the call starts with the history before it, and it is
    longer by exactly two entries when the call returns and by none when it
    raises. *)
Theorem X7_history_grows_by_two
    (content : string) (feedback : option string) (m : Manager) (w : World) :
  store_writable w = true →
  let grows (call : Call) :=
    history (state m) `prefix_of` history (state call.1.2)
    ∧ length (history (state call.1.2))
      = length (history (state m)) + (if returned call.1.1 then 2 else 0) in
  grows (saveCurrentOutput content m w)
  ∧ grows (approve m w)
  ∧ grows (reject feedback m w).
Proof.
  intros _. cbn zeta. split; [|split].
  - destruct (getAgentForPhase (currentPhase (state m))) as [agent|] eqn:Hagent.
    + destruct (saveCurrentOutput_result content m w agent Hagent)
        as (m' & w' & -> & _ & _ & _ & _ & Hh & _).
      cbn. rewrite Hh. unfold Js.push. rewrite <- app_assoc. split.
      * by eexists.
      * rewrite length_app. cbn. lia.
    + rewrite (saveCurrentOutput_refused content m w Hagent). cbn.
      split; [done | lia].
  - destruct (decide (currentPhase (state m)
                        ∈ ["plan_review"; "impl_review"; "review_done"; "testing"]))
      as [Hp|Hp].
    + destruct (approve_result m w Hp) as (m' & w' & -> & _ & _ & _ & _ & _ & Hh).
      cbn. rewrite Hh. unfold Js.push. rewrite <- app_assoc. split.
      * by eexists.
      * rewrite length_app. cbn. lia.
    + rewrite (approve_refused m w Hp). cbn. split; [done | lia].
  - destruct (decide (currentPhase (state m)
                        ∈ ["plan_review"; "impl_review"; "review_done"; "testing"]))
      as [Hp|Hp].
    + destruct (reject_result feedback m w Hp)
        as (m' & w' & -> & _ & _ & _ & _ & _ & Hh).
      cbn. rewrite Hh. unfold Js.push. rewrite <- app_assoc. split.
      * by eexists.
      * rewrite length_app. cbn. lia.
    + rewrite (reject_refused feedback m w Hp). cbn. split; [done | lia].
Qed.

Lemma X7_history_grows_by_two_witness :
  let grows (call : Call) :=
    history (state Sample.plan_review_manager) `prefix_of` history (state call.1.2)
    ∧ length (history (state call.1.2))
      = length (history (state Sample.plan_review_manager))
        + (if returned call.1.1 then 2 else 0) in
  grows (saveCurrentOutput "text" Sample.plan_review_manager Sample.plan_review)
  ∧ grows (approve Sample.plan_review_manager Sample.plan_review)
  ∧ grows (reject (Some "too vague") Sample.plan_review_manager
             Sample.plan_review).
Proof.
  apply (X7_history_grows_by_two "text" (Some "too vague")
           Sample.plan_review_manager Sample.plan_review).
  reflexivity.
Defined.

(** X8: [reset] always returns, from any phase: the controller holds the
    default state (phase idle, no task, no outputs, no history), the store
    holds exactly that state and no output file, [pipelineReset] then
    [phaseChanged(idle)] are emitted, and [start] is legal again. *)
Theorem X8_reset_from_anywhere (m : Manager) (w : World) :
  let result := reset m w in
  result.1.1 = inr ()
  ∧ state result.1.2
    = set_updatedAt (clock w (S (ticks w))) (default_state_at (clock w (ticks w)))
  ∧ persisted result.1.2 result.2
  ∧ outputsDirOf (disk result.2) = Some ∅
  ∧ readAllOutputs result.2 = ∅
  ∧ emitted result.1.2
    = (emitted m ++ [Fire pipelineReset; Fire (phaseChanged "idle")])%list
  ∧ canStart result.1.2 = true.
Proof. cbn zeta. repeat split. Qed.

(** *** Sessions *)

Lemma reviewPhase_in_order (p : string) (agent : AgentDefinition) :
  getAgentForPhase p = Some agent → reviewPhase agent ∈ PHASE_ORDER.
Proof.
  intros H%agent_cases.
  repeat (apply elem_of_cons in H as [[= -> ->] | H];
          [ apply (bool_decide_unpack _); vm_compute; exact I | ]).
  by apply elem_of_nil in H.
Qed.

Lemma review_moves_in_order (p : string) :
  p ∈ ["plan_review"; "impl_review"; "review_done"; "testing"] →
  getNextPhaseAfterApproval p ∈ PHASE_ORDER ∧ getRetryPhase p ∈ PHASE_ORDER.
Proof.
  intros H.
  repeat (apply elem_of_cons in H as [-> | H];
          [ split; apply (bool_decide_unpack _); vm_compute; exact I | ]).
  by apply elem_of_nil in H.
Qed.

Lemma reload_typed_persisted (m : Manager) (w : World) :
  persisted m w →
  reload_typed m w
  = Some (inr (),
          {| state := state m;
             emitted := emitted m
                        ++ [Fire (phaseChanged (currentPhase (state m)))] |},
          w).
Proof.
  intros H. unfold reload_typed, reload.
  by rewrite (loadState_persisted _ _ H).
Qed.

(** One operation of a controller that the store mirrors. *)
Lemma perform_mirrored (op : Operation) (m : Manager) (w : World) :
  persisted m w →
  currentPhase (state m) ∈ PHASE_ORDER →
  ∃ r m' w',
    perform op m w = Some (r, m', w')
    ∧ persisted m' w'
    ∧ currentPhase (state m') ∈ PHASE_ORDER.
Proof.
  intros Hmirror Hphase.
  destruct op as [task|content| |feedback| |]; cbn [perform].
  - destruct (canStart m) eqn:Hstart.
    + destruct (start_succeeds task m w Hstart)
        as (m' & w' & -> & Hplanning & _ & _ & Hp & _).
      eexists _, m', w'. repeat split; [done|]. rewrite Hplanning.
      apply (bool_decide_unpack _). vm_compute. exact I.
    + rewrite (start_refused task m w (canStart_false m Hstart)).
      by eexists _, m, w.
  - destruct (getAgentForPhase (currentPhase (state m))) as [agent|] eqn:Hagent.
    + destruct (saveCurrentOutput_succeeds content m w agent Hagent)
        as (m' & w' & -> & Hreview & _ & Hp & _).
      eexists _, m', w'. repeat split; [done|]. rewrite Hreview.
      by eapply reviewPhase_in_order.
    + rewrite (saveCurrentOutput_refused content m w Hagent).
      by eexists _, m, w.
  - destruct (decide (currentPhase (state m)
                        ∈ ["plan_review"; "impl_review"; "review_done"; "testing"]))
      as [Hp|Hp].
    + destruct (approve_result m w Hp) as (m' & w' & -> & Hm & Hnext & _).
      eexists _, m', w'. repeat split; [done|]. rewrite Hnext.
      by apply review_moves_in_order.
    + rewrite (approve_refused m w Hp). by eexists _, m, w.
  - destruct (decide (currentPhase (state m)
                        ∈ ["plan_review"; "impl_review"; "review_done"; "testing"]))
      as [Hp|Hp].
    + destruct (reject_result feedback m w Hp) as (m' & w' & -> & Hm & Hretry & _).
      eexists _, m', w'. repeat split; [done|]. rewrite Hretry.
      by apply review_moves_in_order.
    + rewrite (reject_refused feedback m w Hp). by eexists _, m, w.
  - eexists _, _, _. split; [reflexivity|]. split.
    + destruct w as [[[f [o|]]|] c n]; reflexivity.
    + apply (bool_decide_unpack _). vm_compute. exact I.
  - rewrite (reload_typed_persisted m w Hmirror). by eexists _, _, w.
Qed.

(** X9: in every session of controller operations ([start],
    [saveCurrentOutput], [approve], [reject], [reset], [reload], raising or
    not) on a store that no other process writes, every call returns or
    raises without leaving the model, the current phase stays one of the
    nine phases of [PHASE_ORDER], and the store holds exactly the state of
    the controller after each call. *)
Theorem X9_phase_stays_in_the_table
    (ops : list Operation) (m : Manager) (w : World) :
  persisted m w →
  currentPhase (state m) ∈ PHASE_ORDER →
  ∃ m' w',
    session ops m w = Some (m', w')
    ∧ currentPhase (state m') ∈ PHASE_ORDER
    ∧ persisted m' w'
    ∧ PipelineManager.reload w' = (Shaped (state m'), w').
Proof.
  revert m w. induction ops as [|op ops IH]; intros m w Hmirror Hphase;
    cbn [session].
  - exists m, w. repeat split; try done.
    unfold reload. by rewrite (loadState_persisted _ _ Hmirror).
  - destruct (perform_mirrored op m w Hmirror Hphase)
      as (r & m1 & w1 & -> & Hmirror1 & Hphase1).
    by apply IH.
Qed.

Lemma X9_phase_stays_in_the_table_witness :
  ∃ m' w',
    session [DoSaveOutput "the plan"; DoStart "too early"; DoApprove; DoReload;
             DoSaveOutput "the code"; DoReject None; DoReset; DoStart "Again"]
      Sample.planning_manager Sample.planning = Some (m', w')
    ∧ currentPhase (state m') ∈ PHASE_ORDER
    ∧ persisted m' w'
    ∧ PipelineManager.reload w' = (Shaped (state m'), w').
Proof.
  apply (X9_phase_stays_in_the_table
           [DoSaveOutput "the plan"; DoStart "too early"; DoApprove; DoReload;
            DoSaveOutput "the code"; DoReject None; DoReset; DoStart "Again"]
           Sample.planning_manager Sample.planning).
  - reflexivity.
  - apply (bool_decide_unpack _). vm_compute. exact I.
Defined.

(** *** A pipeline run *)

Ltac produced :=
  repeat match goal with
         | H : context [produced_before ?p] |- _ =>
             let l := eval vm_compute in (produced_before p) in
             change (produced_before p) with l in H
         | |- context [produced_before ?p] =>
             let l := eval vm_compute in (produced_before p) in
             change (produced_before p) with l
         end;
  repeat match goal with
         | H : Forall _ (_ :: _) |- _ => apply Forall_cons in H as [? H]
         end;
  repeat (apply Forall_cons; split); try apply Forall_nil;
  rewrite ?lookup_insert; repeat case_decide; try done; eauto.

Lemma call_in_a_run (c : Command) (m : Manager) (w : World) :
  persisted m w →
  has_produced m →
  ∃ r m' w',
    call c m w = Some (r, m', w')
    ∧ persisted m' w'
    ∧ has_produced m'
    ∧ history (state m) `prefix_of` history (state m')
    ∧ taskDescription (state m') = taskDescription (state m)
    ∧ createdAt (state m') = createdAt (state m).
Proof.
  intros Hmirror Hinv. unfold has_produced in *.
  destruct c as [content| |feedback|]; cbn [call].
  - destruct (getAgentForPhase (currentPhase (state m))) as [agent|] eqn:Hagent.
    + destruct (saveCurrentOutput_result content m w agent Hagent)
        as (m' & w' & -> & Hfile & Hphase & Htask & Hout & Hh & Hcreated & _).
      eexists _, m', w'. split; [done|]. split; [exact Hfile|].
      rewrite Hphase, Hout, Hh, Htask, Hcreated.
      split; [|split; [|done]].
      * apply agent_cases in Hagent.
        repeat (apply elem_of_cons in Hagent as [[= Hp ->] | Hagent];
                [ rewrite Hp in Hinv; cbn [reviewPhase outputKey planner_agent
                    implementer_agent reviewer_agent test_agent]; produced | ]).
        by apply elem_of_nil in Hagent.
      * unfold Js.push. rewrite <- app_assoc. by eexists.
    + rewrite (saveCurrentOutput_refused content m w Hagent).
      by eexists _, m, w.
  - destruct (decide (currentPhase (state m)
                        ∈ ["plan_review"; "impl_review"; "review_done"; "testing"]))
      as [Hp|Hp].
    + destruct (approve_result m w Hp)
        as (m' & w' & -> & Hm & Hphase & Htask & Hout & Hcreated & Hh).
      eexists _, m', w'. split; [done|]. split; [exact Hm|].
      rewrite Hphase, Hout, Hh, Htask, Hcreated.
      split; [|split; [|done]].
      * repeat (apply elem_of_cons in Hp as [Hp | Hp];
                [ rewrite Hp in *; produced | ]).
        by apply elem_of_nil in Hp.
      * unfold Js.push. rewrite <- app_assoc. by eexists.
    + rewrite (approve_refused m w Hp). by eexists _, m, w.
  - destruct (decide (currentPhase (state m)
                        ∈ ["plan_review"; "impl_review"; "review_done"; "testing"]))
      as [Hp|Hp].
    + destruct (reject_result feedback m w Hp)
        as (m' & w' & -> & Hm & Hphase & Htask & Hout & Hcreated & Hh).
      eexists _, m', w'. split; [done|]. split; [exact Hm|].
      rewrite Hphase, Hout, Hh, Htask, Hcreated.
      split; [|split; [|done]].
      * repeat (apply elem_of_cons in Hp as [Hp | Hp];
                [ rewrite Hp in *; produced | ]).
        by apply elem_of_nil in Hp.
      * unfold Js.push. rewrite <- app_assoc. by eexists.
    + rewrite (reject_refused feedback m w Hp). by eexists _, m, w.
  - rewrite (reload_typed_persisted m w Hmirror). by eexists _, _, w.
Qed.

Lemma run_in_a_run (cs : list Command) (m : Manager) (w : World) :
  persisted m w →
  has_produced m →
  ∃ m' w',
    run cs m w = Some (m', w')
    ∧ persisted m' w'
    ∧ has_produced m'
    ∧ history (state m) `prefix_of` history (state m')
    ∧ taskDescription (state m') = taskDescription (state m)
    ∧ createdAt (state m') = createdAt (state m).
Proof.
  revert m w. induction cs as [|c cs IH]; intros m w Hmirror Hinv; cbn [run].
  - by exists m, w.
  - destruct (call_in_a_run c m w Hmirror Hinv)
      as (r & m1 & w1 & -> & Hmirror1 & Hinv1 & Hh1 & Ht1 & Hc1).
    destruct (IH m1 w1 Hmirror1 Hinv1) as (m' & w' & -> & ? & ? & Hh & Ht & Hc).
    exists m', w'. repeat split; try done.
    + by etrans.
    + by rewrite Ht.
    + by rewrite Hc.
Qed.

Lemma start_result (task : string) (m : Manager) (w : World) :
  canStart m = true →
  ∃ m' w',
    start task m w = (inr (), m', w')
    ∧ persisted m' w'
    ∧ state m'
      = {| currentPhase := "planning"; taskDescription := task; outputs := ∅;
           history := [ {| phase := "planning"; action := "started";
                           timestamp := clock w (S (ticks w));
                           detail := Some ("Task: " ++ task) |} ];
           createdAt := clock w (ticks w);
           updatedAt := clock w (S (S (ticks w))) |}
    ∧ outputsDirOf (disk w') = Some (default ∅ (outputsDirOf (disk w))).
Proof.
  intros Hguard. unfold start. rewrite start_guard, Hguard. cbn [negb].
  destruct w as [[[f [o|]]|] c n]; cbn; eexists _, _; repeat split.
Qed.

(** X10: in a pipeline run, that is after a [start] that returned and
    through any sequence of [saveCurrentOutput], [approve], [reject] and
    [reload] (raising or not, the store written by no other process), the
    task description stays the one given to [start], createdAt stays the
    time of that [start], and the history still begins with its "started"
    entry. *)
Theorem X10_a_run_keeps_its_task
    (task : string) (cs : list Command) (m : Manager) (w : World) :
  canStart m = true →
  ∃ m' w',
    run cs (start task m w).1.2 (start task m w).2 = Some (m', w')
    ∧ taskDescription (state m') = task
    ∧ createdAt (state m') = clock w (ticks w)
    ∧ head (history (state m'))
      = Some {| phase := "planning"; action := "started";
                timestamp := clock w (S (ticks w));
                detail := Some ("Task: " ++ task) |}
    ∧ persisted m' w'.
Proof.
  intros Hguard.
  destruct (start_result task m w Hguard) as (m0 & w0 & -> & Hmirror & Hstate & _).
  assert (Hnone : has_produced m0).
  { unfold has_produced. rewrite Hstate. constructor. }
  destruct (run_in_a_run cs m0 w0 Hmirror Hnone)
    as (m' & w' & Hrun & ? & _ & Hh & Ht & Hc).
  exists m', w'. cbn. rewrite Hrun, Ht, Hc, Hstate. cbn.
  repeat split; try done.
  destruct Hh as [k Hk]. rewrite Hk, Hstate. reflexivity.
Qed.

Lemma X10_a_run_keeps_its_task_witness :
  ∃ m' w',
    run [SaveOutput "the plan"; Reject (Some "too vague"); Reload;
         SaveOutput "a better plan"; Approve]
      (start "Add auth" Sample.idle_manager Sample.fresh).1.2
      (start "Add auth" Sample.idle_manager Sample.fresh).2 = Some (m', w')
    ∧ taskDescription (state m') = "Add auth"
    ∧ createdAt (state m') = "2026-02-01T10:00:00.000Z"
    ∧ head (history (state m'))
      = Some {| phase := "planning"; action := "started";
                timestamp := "2026-02-01T10:00:01.000Z";
                detail := Some "Task: Add auth" |}
    ∧ persisted m' w'.
Proof.
  apply (X10_a_run_keeps_its_task "Add auth"
           [SaveOutput "the plan"; Reject (Some "too vague"); Reload;
            SaveOutput "a better plan"; Approve]
           Sample.idle_manager Sample.fresh).
  reflexivity.
Defined.

(** X11: in a pipeline run (as in X10), whenever an agent is active, every
    output it requires ([requiredInputs]: the planner's for the implementer,
    the planner's and the implementer's for the reviewer, all three for the
    tester) is recorded in [outputs]. *)
Theorem X11_required_inputs_are_recorded
    (task : string) (cs : list Command) (m : Manager) (w : World) :
  canStart m = true →
  ∃ m' w',
    run cs (start task m w).1.2 (start task m w).2 = Some (m', w')
    ∧ ∀ agent,
        getAgentForPhase (currentPhase (state m')) = Some agent →
        Forall (λ inputKey, is_Some (outputs (state m') !! inputKey))
          (requiredInputs agent).
Proof.
  intros Hguard.
  destruct (start_result task m w Hguard) as (m0 & w0 & -> & Hmirror & Hstate & _).
  assert (Hnone : has_produced m0).
  { unfold has_produced. rewrite Hstate. constructor. }
  destruct (run_in_a_run cs m0 w0 Hmirror Hnone) as (m' & w' & Hrun & _ & Hinv & _).
  exists m', w'. split; [exact Hrun|]. intros agent Hagent.
  unfold has_produced in Hinv. apply agent_cases in Hagent.
  repeat (apply elem_of_cons in Hagent as [[= Hp ->] | Hagent];
          [ rewrite Hp in Hinv; exact Hinv | ]).
  by apply elem_of_nil in Hagent.
Qed.

Lemma X11_required_inputs_are_recorded_witness :
  ∃ m' w',
    run [SaveOutput "the plan"; Approve; SaveOutput "the code"; Approve]
      (start "Add auth" Sample.idle_manager Sample.fresh).1.2
      (start "Add auth" Sample.idle_manager Sample.fresh).2 = Some (m', w')
    ∧ ∀ agent,
        getAgentForPhase (currentPhase (state m')) = Some agent →
        Forall (λ inputKey, is_Some (outputs (state m') !! inputKey))
          (requiredInputs agent).
Proof.
  apply (X11_required_inputs_are_recorded "Add auth"
           [SaveOutput "the plan"; Approve; SaveOutput "the code"; Approve]
           Sample.idle_manager Sample.fresh).
  reflexivity.
Defined.

(** *** From start to completed *)

Lemma save_step (content p : string) (agent : AgentDefinition)
    (m : Manager) (w : World) :
  currentPhase (state m) = p →
  getAgentForPhase p = Some agent →
  ∃ m' w',
    saveCurrentOutput content m w = (inr (), m', w')
    ∧ currentPhase (state m') = reviewPhase agent
    ∧ outputs (state m') = <[outputKey agent := content]> (outputs (state m))
    ∧ length (history (state m')) = length (history (state m)) + 2
    ∧ ∀ b, readAgentOutput b w'
           = if decide (b = outputKey agent) then Some content
             else readAgentOutput b w.
Proof.
  intros Hp Hagent. rewrite <- Hp in Hagent.
  destruct (saveCurrentOutput_result content m w agent Hagent)
    as (m' & w' & -> & _ & Hphase & _ & Hout & Hh & _ & _ & Hdir).
  exists m', w'. repeat split; try done.
  - rewrite Hh. unfold Js.push. rewrite !length_app. cbn. lia.
  - intros b. unfold readAgentOutput. rewrite Hdir. cbn.
    rewrite lookup_insert. case_decide; case_decide; subst; try done.
    by destruct (outputsDirOf (disk w)).
Qed.

Lemma approve_step (p : string) (m : Manager) (w : World) :
  currentPhase (state m) = p →
  p ∈ ["plan_review"; "impl_review"; "review_done"; "testing"] →
  ∃ m' w',
    approve m w = (inr (), m', w')
    ∧ currentPhase (state m') = getNextPhaseAfterApproval p
    ∧ outputs (state m') = outputs (state m)
    ∧ length (history (state m')) = length (history (state m)) + 2
    ∧ ∀ b, readAgentOutput b w' = readAgentOutput b w.
Proof.
  intros Hp Hin. rewrite <- Hp in Hin |- *.
  destruct (approve_succeeds m w Hin) as (m' & w' & Happrove & _ & _ & _ & Hdir).
  destruct (approve_result m w Hin)
    as (m2 & w2 & Happrove2 & _ & Hphase & _ & Hout & _ & Hh).
  rewrite Happrove in Happrove2. injection Happrove2 as <- <-.
  exists m', w'. repeat split; try done.
  - rewrite Hh. unfold Js.push. rewrite !length_app. cbn. lia.
  - apply (readAllOutputs_ext w w' Hdir).
Qed.

(** X12: the whole pipeline.  From any controller that may start, on a
    store whose record and agent files can be overwritten, [start] followed
    by the planner's output, an approval, the
    implementer's output, an approval, the reviewer's output, an approval
    and the tester's output ends in phase completed, with the four contents
    under the four agent names in [outputs] and in the output files, a
    history of fifteen entries, and [start] legal again. *)
Theorem X12_from_start_to_completed
    (task plan code review tests : string) (m : Manager) (w : World) :
  canStart m = true →
  store_writable w = true →
  ∃ m' w',
    run [SaveOutput plan; Approve; SaveOutput code; Approve;
         SaveOutput review; Approve; SaveOutput tests]
      (start task m w).1.2 (start task m w).2 = Some (m', w')
    ∧ currentPhase (state m') = "completed"
    ∧ outputs (state m')
      = <["test" := tests]> (<["reviewer" := review]>
          (<["implementer" := code]> (<["planner" := plan]> ∅)))
    ∧ getOutput "planner" w' = Some plan
    ∧ getOutput "implementer" w' = Some code
    ∧ getOutput "reviewer" w' = Some review
    ∧ getOutput "test" w' = Some tests
    ∧ length (history (state m')) = 15
    ∧ canStart m' = true.
Proof.
  intros Hguard _.
  destruct (start_result task m w Hguard) as (m0 & w0 & -> & _ & Hstate & _).
  assert (Hp0 : currentPhase (state m0) = "planning") by by rewrite Hstate.
  assert (Ho0 : outputs (state m0) = ∅) by by rewrite Hstate.
  assert (Hh0 : length (history (state m0)) = 1) by by rewrite Hstate.
  cbn [fst snd].
  destruct (save_step plan _ planner_agent m0 w0 Hp0 eq_refl)
    as (m1 & w1 & E1 & Hp1 & Ho1 & Hh1 & Hf1).
  destruct (approve_step _ m1 w1 Hp1) as (m2 & w2 & E2 & Hp2 & Ho2 & Hh2 & Hf2).
  { apply (bool_decide_unpack _). vm_compute. exact I. }
  destruct (save_step code _ implementer_agent m2 w2 Hp2 eq_refl)
    as (m3 & w3 & E3 & Hp3 & Ho3 & Hh3 & Hf3).
  destruct (approve_step _ m3 w3 Hp3) as (m4 & w4 & E4 & Hp4 & Ho4 & Hh4 & Hf4).
  { apply (bool_decide_unpack _). vm_compute. exact I. }
  destruct (save_step review _ reviewer_agent m4 w4 Hp4 eq_refl)
    as (m5 & w5 & E5 & Hp5 & Ho5 & Hh5 & Hf5).
  destruct (approve_step _ m5 w5 Hp5) as (m6 & w6 & E6 & Hp6 & Ho6 & Hh6 & Hf6).
  { apply (bool_decide_unpack _). vm_compute. exact I. }
  destruct (save_step tests _ test_agent m6 w6 Hp6 eq_refl)
    as (m7 & w7 & E7 & Hp7 & Ho7 & Hh7 & Hf7).
  exists m7, w7. cbn [run call]. rewrite E1, E2, E3, E4, E5, E6, E7.
  unfold getOutput, canStart.
  rewrite !Hf7, !Hf6, !Hf5, !Hf4, !Hf3, !Hf2, !Hf1.
  rewrite Hp7, Ho7, Ho6, Ho5, Ho4, Ho3, Ho2, Ho1, Ho0.
  repeat split; try done. lia.
Qed.

Lemma X12_from_start_to_completed_witness :
  ∃ m' w',
    run [SaveOutput "plan"; Approve; SaveOutput "code"; Approve;
         SaveOutput "review"; Approve; SaveOutput "all green"]
      (start "Add auth" Sample.completed_manager Sample.completed).1.2
      (start "Add auth" Sample.completed_manager Sample.completed).2
    = Some (m', w')
    ∧ currentPhase (state m') = "completed"
    ∧ outputs (state m')
      = <["test" := "all green"]> (<["reviewer" := "review"]>
          (<["implementer" := "code"]> (<["planner" := "plan"]> ∅)))
    ∧ getOutput "planner" w' = Some "plan"
    ∧ getOutput "implementer" w' = Some "code"
    ∧ getOutput "reviewer" w' = Some "review"
    ∧ getOutput "test" w' = Some "all green"
    ∧ length (history (state m')) = 15
    ∧ canStart m' = true.
Proof.
  apply (X12_from_start_to_completed "Add auth" "plan" "code" "review"
           "all green" Sample.completed_manager Sample.completed);
    reflexivity.
Defined.

(** X13: where the decisions lead.  An [approve] that returns leaves the
    pipeline in implementing, reviewing, testing or completed, with an agent
    active unless the pipeline is completed; a [reject] that returns leaves
    it in planning or implementing, always with an agent active, and with
    [outputs] as it was. *)
Theorem X13_decisions_lead_to_work
    (feedback : option string) (m : Manager) (w : World) :
  (returned (approve m w).1.1 = true →
   currentPhase (state (approve m w).1.2)
     ∈ ["implementing"; "reviewing"; "testing"; "completed"]
   ∧ isAgentActive (approve m w).1.2
     = negb (bool_decide (currentPhase (state (approve m w).1.2) = "completed")))
  ∧ (returned (reject feedback m w).1.1 = true →
     currentPhase (state (reject feedback m w).1.2) ∈ ["planning"; "implementing"]
     ∧ isAgentActive (reject feedback m w).1.2 = true
     ∧ outputs (state (reject feedback m w).1.2) = outputs (state m)).
Proof.
  split.
  - destruct (decide (currentPhase (state m)
                        ∈ ["plan_review"; "impl_review"; "review_done"; "testing"]))
      as [Hp|Hp].
    + destruct (approve_result m w Hp) as (m' & w' & -> & _ & Hphase & _).
      intros _. cbn [fst snd]. unfold isAgentActive. rewrite Hphase.
      repeat (apply elem_of_cons in Hp as [-> | Hp];
              [ split; [apply (bool_decide_unpack _); vm_compute; exact I
                       | reflexivity] | ]).
      by apply elem_of_nil in Hp.
    + by rewrite (approve_refused m w Hp).
  - destruct (decide (currentPhase (state m)
                        ∈ ["plan_review"; "impl_review"; "review_done"; "testing"]))
      as [Hp|Hp].
    + destruct (reject_result feedback m w Hp)
        as (m' & w' & -> & _ & Hphase & _ & Hout & _).
      intros _. cbn [fst snd]. unfold isAgentActive. rewrite Hphase, Hout.
      repeat (apply elem_of_cons in Hp as [-> | Hp];
              [ repeat split; [apply (bool_decide_unpack _); vm_compute; exact I] | ]).
      by apply elem_of_nil in Hp.
    + by rewrite (reject_refused feedback m w Hp).
Qed.

Lemma X13_decisions_lead_to_work_witness :
  let reviewing_plan :=
    (saveCurrentOutput "the plan" Sample.planning_manager Sample.planning) in
  (currentPhase (state (approve reviewing_plan.1.2 reviewing_plan.2).1.2)
     ∈ ["implementing"; "reviewing"; "testing"; "completed"]
   ∧ isAgentActive (approve reviewing_plan.1.2 reviewing_plan.2).1.2
     = negb (bool_decide
               (currentPhase (state (approve reviewing_plan.1.2
                                       reviewing_plan.2).1.2) = "completed")))
  ∧ (currentPhase (state (reject None reviewing_plan.1.2 reviewing_plan.2).1.2)
       ∈ ["planning"; "implementing"]
     ∧ isAgentActive (reject None reviewing_plan.1.2 reviewing_plan.2).1.2 = true
     ∧ outputs (state (reject None reviewing_plan.1.2 reviewing_plan.2).1.2)
       = outputs (state reviewing_plan.1.2)).
Proof.
  cbn zeta. split.
  - apply (X13_decisions_lead_to_work None). reflexivity.
  - apply (X13_decisions_lead_to_work None). reflexivity.
Defined.

End ControllerSessions.

(** ** The tools of the worker process, read side *)

Section ToolsRead.

Import Storage Spec McpTools.
Import McpServer (of_record, phaseMap, pipeline_save_output).

(** The first loop of the tool: the own entries of the state, without a
    [__proto__] one. *)
Lemma copied_outputs_lookup (o : gmap string string) (a : string) :
  map_fold (λ key val allOutputs, Js.set allOutputs key val) ∅ o !! a
  = if decide (a = "__proto__") then None else o !! a.
Proof.
  revert a.
  eapply (map_fold_weak_ind
            (λ r m, ∀ a, r !! a = if decide (a = "__proto__") then None else m !! a)).
  - intros a. rewrite !lookup_empty. by case_decide.
  - intros k v m r Hk IH a. unfold Js.set. case_bool_decide as Hset.
    + destruct Hset as [-> _]. rewrite IH. case_decide; [done|].
      by rewrite lookup_insert_ne.
    + assert (k ≠ "__proto__").
      { intros ->. apply Hset. split; [done|]. rewrite IH. by rewrite decide_True. }
      rewrite !lookup_insert. case_decide; subst.
      * by rewrite decide_False.
      * apply IH.
Qed.

(** The second loop: a file fills the entry of its name only where the
    entry is not truthy. *)
Lemma filled_outputs_lookup
    (base : gmap string string) (files : gmap string OutputFile) (a : string) :
  map_fold (λ name file allOutputs,
              if truthy (Js.get allOutputs name) then allOutputs
              else match file with
                   | OutputText content => Js.set allOutputs name content
                   | OutputUnreadable => allOutputs
                   end) base files !! a
  = if truthy (Js.get base a) then base !! a
    else match files !! a with
         | Some (OutputText content) => Some content
         | _ => base !! a
         end.
Proof.
  revert a.
  eapply (map_fold_weak_ind
            (λ r m, ∀ a, r !! a
                         = if truthy (Js.get base a) then base !! a
                           else match m !! a with
                                | Some (OutputText content) => Some content
                                | _ => base !! a
                                end)).
  - intros a. rewrite lookup_empty. by destruct (truthy _).
  - intros k file m r Hk IH a.
    assert (Hrk : r !! k = base !! k).
    { rewrite IH, Hk. by destruct (truthy _). }
    assert (Hget : Js.get r k = Js.get base k).
    { unfold Js.get. by rewrite Hrk. }
    rewrite Hget. destruct (decide (a = k)) as [->|Hne].
    + rewrite lookup_insert_eq.
      destruct (truthy (Js.get base k)) eqn:Htruthy; [by rewrite Hrk|].
      destruct file as [|content]; [by rewrite Hrk|].
      assert (Hset : Js.set r k content = <[k:=content]> r).
      { unfold Js.set. rewrite bool_decide_eq_false_2; [done|].
        intros [-> Hnone]. rewrite Hrk in Hnone.
        unfold Js.get in Htruthy. by rewrite Hnone in Htruthy. }
      by rewrite Hset, lookup_insert_eq.
    + rewrite (lookup_insert_ne m) by done. rewrite <- IH.
      destruct (truthy (Js.get base k)); [done|].
      destruct file as [|content]; [done|].
      unfold Js.set. case_bool_decide; [done|]. by rewrite lookup_insert_ne.
Qed.

(** X14: what the tool [pipeline_save_output] saved is what the tool
    [pipeline_get_outputs] answers for that agent, from any store whose
    record is absent, no JSON or a state and whose file for the agent can
    be overwritten, for every content (the empty one is read back from the
    file) and every non-empty agent name that can be the name of a file and
    is not a property name of [Object.prototype]. *)
Theorem X14_saved_output_is_read_back
    (agent_name output : string) (w w1 : World)
    (state : McpServer.PipelineState) :
  agent_name ≠ EmptyString →
  agent_name ∉ Js.Object_prototype →
  file_name agent_name = true →
  record_writable w = true →
  output_writable agent_name w = true →
  McpServer.loadState w = (Some state, w1) →
  ∃ text after,
    pipeline_save_output agent_name output w = Some (text, after)
    ∧ pipeline_get_outputs (Some agent_name) after
      = Some (inr (ReplyText output), after).
Proof.
  intros Hname Hproto _ _ _ Hload.
  destruct (server_loadState_Some _ _ _ Hload) as (s & -> & _).
  assert (∃ text after s',
            pipeline_save_output agent_name output w = Some (text, after)
            ∧ stateFileOf (disk after) = Some (StateJson (state_to_json s'))
            ∧ outputs s' = <[agent_name := output]> (outputs s)
            ∧ outputsDirOf (disk after)
              = Some (<[agent_name := OutputText output]>
                        (default ∅ (outputsDirOf (disk w1)))))
    as (text & after & s' & Hsave & Hfile & Hout & Hdir).
  { destruct (phaseMap !! agent_name) as [p|] eqn:Hp.
    - destruct (tool_recognized agent_name p output w w1 s Hp Hload)
        as (text & after & s' & ? & ? & _ & _ & ? & _ & _ & _ & ?).
      by exists text, after, s'.
    - assert (Hget : Js.get phaseMap agent_name = Js.Undefined).
      { unfold Js.get. rewrite Hp. by rewrite bool_decide_eq_false_2. }
      destruct (tool_unrecognized agent_name output w w1 s Hget Hload)
        as (text & after & s' & ? & ? & _ & ? & _ & ?).
      by exists text, after, s'. }
  exists text, after. split; [exact Hsave|].
  unfold pipeline_get_outputs.
  rewrite (server_loadState_persisted _ _ Hfile).
  destruct agent_name as [|x name]; [done|].
  unfold one_output, Js.get. cbn [McpServer.outputs of_record].
  rewrite Hout, lookup_insert_eq, Hdir. cbn. rewrite lookup_insert_eq.
  by destruct output.
Qed.

Lemma X14_saved_output_is_read_back_witness :
  ∃ text after,
    pipeline_save_output "implementer" "the code" Sample.fresh = Some (text, after)
    ∧ pipeline_get_outputs (Some "implementer") after
      = Some (inr (ReplyText "the code"), after).
Proof.
  eapply (X14_saved_output_is_read_back "implementer" "the code" Sample.fresh).
  - discriminate.
  - apply (bool_decide_unpack _). vm_compute. exact I.
  - reflexivity.
  - reflexivity.
  - reflexivity.
  - reflexivity.
Defined.

(** X15: in the answer of [pipeline_get_outputs] for all outputs, a
    non-empty output recorded in the state wins over the file of the same
    name; where the state records nothing or the empty string, the content
    of the file is reported when the file exists and is readable, and else
    what the state records (for every name that is not a property name of
    [Object.prototype]). *)
Theorem X15_recorded_outputs_win_over_files
    (state : McpServer.PipelineState) (w : World) (name : string) :
  name ∉ Js.Object_prototype →
  all_outputs state w !! name
  = match McpServer.outputs state !! name with
    | Some (String _ _ as output) => Some output
    | recorded =>
        match readAgentOutput name w with
        | Some content => Some content
        | None => recorded
        end
    end.
Proof.
  intros Hproto.
  assert (Hne : name ≠ "__proto__").
  { intros ->. apply Hproto. apply (bool_decide_unpack _). vm_compute. exact I. }
  assert (Hbase :
    map_fold (λ key val allOutputs, Js.set allOutputs key val) ∅
      (McpServer.outputs state) !! name = McpServer.outputs state !! name).
  { rewrite copied_outputs_lookup. by rewrite decide_False. }
  unfold all_outputs, readAgentOutput.
  destruct (outputsDirOf (disk w)) as [files|]; cbn.
  - rewrite filled_outputs_lookup. unfold Js.get. rewrite Hbase.
    rewrite (bool_decide_eq_false_2 (name ∈ _)) by done.
    destruct (McpServer.outputs state !! name) as [[|x output]|];
      cbn; by destruct (files !! name) as [[|content]|].
  - rewrite Hbase.
    by destruct (McpServer.outputs state !! name) as [[|x output]|].
Qed.

Lemma X15_recorded_outputs_win_over_files_witness :
  all_outputs (of_record Sample.completed_state) Sample.stale_files !! "planner"
  = Some "the plan"
  ∧ all_outputs (of_record Sample.completed_state) Sample.stale_files !! "reviewer"
    = Some "a review".
Proof.
  split.
  - rewrite (X15_recorded_outputs_win_over_files
               (of_record Sample.completed_state) Sample.stale_files "planner").
    + reflexivity.
    + apply (bool_decide_unpack _). vm_compute. exact I.
  - rewrite (X15_recorded_outputs_win_over_files
               (of_record Sample.completed_state) Sample.stale_files "reviewer").
    + reflexivity.
    + apply (bool_decide_unpack _). vm_compute. exact I.
Defined.

End ToolsRead.

(** ** The two processes together *)

Section TwoProcesses.

Import AgentConfig Storage PipelineManager Spec.
Import McpServer (of_record, phaseMap, pipeline_save_output).

(** X16: the worker's write reaches the controller through [reload].  When
    the store mirrors the controller and a recognized agent saves its output
    through the tool, in whatever phase the controller is, the next [reload]
    puts the controller in that agent's review phase with the output
    recorded under the agent's name and readable from its file, and
    announces that phase; the task description is unchanged, and the
    controller can approve unless the phase is completed. *)
Theorem X16_reload_sees_the_tool
    (agent_name p output : string) (m : Manager) (w : World) :
  phaseMap !! agent_name = Some p →
  persisted m w →
  ∃ text after m',
    pipeline_save_output agent_name output w = Some (text, after)
    ∧ reload_typed m after = Some (inr (), m', after)
    ∧ currentPhase (state m') = p
    ∧ outputs (state m') = <[agent_name := output]> (outputs (state m))
    ∧ taskDescription (state m') = taskDescription (state m)
    ∧ getOutput agent_name after = Some output
    ∧ last (emitted m') = Some (Fire (phaseChanged p))
    ∧ canApprove m' = bool_decide (p ≠ "completed").
Proof.
  intros Hp Hmirror.
  destruct (tool_recognized agent_name p output w w (state m) Hp
              (server_loadState_persisted w _ Hmirror))
    as (text & after & s' & Hsave & Hfile & Hphase & Htask & Hout & _ & _ & _ & Hdir).
  exists text, after,
    {| state := s'; emitted := emitted m ++ [Fire (phaseChanged (currentPhase s'))] |}.
  split; [exact Hsave|]. split.
  { unfold reload_typed, reload. by rewrite (loadState_persisted _ _ Hfile). }
  cbn [state emitted]. rewrite Hphase, Htask, Hout.
  repeat split.
  - unfold getOutput, readAgentOutput. rewrite Hdir. cbn.
    by rewrite lookup_insert_eq.
  - by rewrite last_snoc.
  - unfold canApprove. cbn [state]. rewrite Hphase.
    apply phaseMap_lookup in Hp.
    repeat (apply elem_of_cons in Hp as [[= -> ->] | Hp]; [reflexivity|]).
    by apply elem_of_nil in Hp.
Qed.

Lemma X16_reload_sees_the_tool_witness :
  ∃ text after m',
    pipeline_save_output "planner" "the plan" Sample.planning = Some (text, after)
    ∧ reload_typed Sample.planning_manager after = Some (inr (), m', after)
    ∧ currentPhase (state m') = "plan_review"
    ∧ outputs (state m')
      = <["planner" := "the plan"]> (outputs (state Sample.planning_manager))
    ∧ taskDescription (state m') = taskDescription (state Sample.planning_manager)
    ∧ getOutput "planner" after = Some "the plan"
    ∧ last (emitted m') = Some (Fire (phaseChanged "plan_review"))
    ∧ canApprove m' = bool_decide ("plan_review" ≠ "completed").
Proof.
  apply (X16_reload_sees_the_tool "planner" "plan_review" "the plan"
           Sample.planning_manager Sample.planning); reflexivity.
Defined.

End TwoProcesses.

(** ** The command handlers of the extension *)

Section ExtensionCommands.

Import AgentConfig Storage PipelineManager Spec Extension.

Lemma isAgentActive_Some (m : Manager) :
  isAgentActive m = true →
  ∃ agent, getAgentForPhase (currentPhase (state m)) = Some agent.
Proof.
  rewrite isAgentActive_agent. intros H%bool_decide_eq_true.
  destruct H as [agent H]. by exists agent.
Qed.

(** X18: in phase testing the Approve and Reject commands only warn and
    change nothing, neither the controller nor the store, although the
    controller's [approve] and [reject] themselves accept that phase. *)
Theorem X18_commands_refuse_in_testing
    (answer feedback : option string) (m : Manager) (w : World) :
  currentPhase (state m) = "testing" →
  commandApprove m w
  = ([Warn "Nothing to approve. Pipeline is not in a review phase."], m, w)
  ∧ commandReject answer m w
    = ([Warn "Nothing to reject. Pipeline is not in a review phase."], m, w)
  ∧ returned (approve m w).1.1 = true
  ∧ returned (reject feedback m w).1.1 = true.
Proof.
  intros Hp.
  assert (currentPhase (state m)
            ∈ ["plan_review"; "impl_review"; "review_done"; "testing"]) as Hin.
  { rewrite Hp. set_solver. }
  repeat split.
  - unfold commandApprove, canApprove. by rewrite Hp.
  - unfold commandReject, canReject, canApprove. by rewrite Hp.
  - by destruct (approve_result m w Hin) as (m' & w' & -> & _).
  - by destruct (reject_result feedback m w Hin) as (m' & w' & -> & _).
Qed.

Lemma X18_commands_refuse_in_testing_witness :
  commandApprove Sample.testing_manager Sample.testing
  = ([Warn "Nothing to approve. Pipeline is not in a review phase."],
     Sample.testing_manager, Sample.testing)
  ∧ commandReject (Some "flaky") Sample.testing_manager Sample.testing
    = ([Warn "Nothing to reject. Pipeline is not in a review phase."],
       Sample.testing_manager, Sample.testing)
  ∧ returned (approve Sample.testing_manager Sample.testing).1.1 = true
  ∧ returned (reject None Sample.testing_manager Sample.testing).1.1 = true.
Proof.
  apply (X18_commands_refuse_in_testing (Some "flaky") None
           Sample.testing_manager Sample.testing).
  reflexivity.
Defined.

(** X19: the Complete Phase command never records an empty output, and
    it acts on the phase that is current when the input box closes.  When
    an agent is at work at the invocation and one still is when the box
    closes, on a store whose record and agent files can be overwritten, the
    command moves the controller to that agent's review phase and records,
    under the agent's key and in its file, what the user pasted or, when
    the box was dismissed or left empty, the placeholder text; it tells the
    user the review phase.  When no agent is at work any more, it shows the
    error of [saveCurrentOutput] and changes nothing. *)
Theorem X19_completePhase_records_an_output
    (content : option string) (m resumed : Manager) (w after : World) :
  isAgentActive m = true →
  (isAgentActive resumed = true →
   store_writable after = true →
   ∃ agent m' w',
     getAgentForPhase (currentPhase (state resumed)) = Some agent
     ∧ commandCompletePhase content m w (resumed, after)
       = ([Inform ("Phase completed! Now in: " ++ reviewPhase agent
                   ++ ". Review and approve or reject.")], m', w')
     ∧ currentPhase (state m') = reviewPhase agent
     ∧ outputs (state m') !! outputKey agent
       = Some (content_or_placeholder content)
     ∧ getOutput (outputKey agent) w' = Some (content_or_placeholder content)
     ∧ content_or_placeholder content ≠ EmptyString
     ∧ (content_or_placeholder content
        = "[Phase completed manually by user - no output captured]"
        ∨ content = Some (content_or_placeholder content)))
  ∧ (isAgentActive resumed = false →
     commandCompletePhase content m w (resumed, after)
     = ([Fail ("Complete phase failed: No agent assigned to phase "
               ++ Js.dquote ++ currentPhase (state resumed) ++ Js.dquote
               ++ ". Cannot save output.")], resumed, after)).
Proof.
  intros Hactive. split.
  - intros Hstill _.
    destruct (isAgentActive_Some resumed Hstill) as [agent Hagent].
    destruct (saveCurrentOutput_succeeds (content_or_placeholder content)
                resumed after agent Hagent)
      as (m' & w' & Hcall & Hphase & Hout & _ & Hdir).
    exists agent, m', w'.
    split; [exact Hagent|]. split.
    { unfold commandCompletePhase. by rewrite Hactive, Hcall, Hphase. }
    split; [exact Hphase|]. split.
    { by rewrite Hout, lookup_insert_eq. }
    split.
    { unfold getOutput, readAgentOutput. rewrite Hdir. cbn.
      by rewrite lookup_insert_eq. }
    split.
    + by destruct content as [[|c text]|].
    + destruct content as [[|c text]|]; cbn; auto.
  - intros Hended. unfold commandCompletePhase. rewrite Hactive. cbn [negb].
    rewrite isAgentActive_agent in Hended.
    apply bool_decide_eq_false in Hended.
    destruct (getAgentForPhase (currentPhase (state resumed)))
      as [agent|] eqn:Hagent; [by destruct Hended; eexists|].
    by rewrite (saveCurrentOutput_refused _ resumed after Hagent).
Qed.

Lemma X19_completePhase_records_an_output_witness :
  (∃ agent m' w',
     getAgentForPhase (currentPhase (state Sample.planning_manager)) = Some agent
     ∧ commandCompletePhase (Some EmptyString) Sample.planning_manager
         Sample.planning (Sample.planning_manager, Sample.planning)
       = ([Inform ("Phase completed! Now in: " ++ reviewPhase agent
                   ++ ". Review and approve or reject.")], m', w')
     ∧ currentPhase (state m') = reviewPhase agent
     ∧ outputs (state m') !! outputKey agent
       = Some (content_or_placeholder (Some EmptyString))
     ∧ getOutput (outputKey agent) w'
       = Some (content_or_placeholder (Some EmptyString))
     ∧ content_or_placeholder (Some EmptyString) ≠ EmptyString
     ∧ (content_or_placeholder (Some EmptyString)
        = "[Phase completed manually by user - no output captured]"
        ∨ Some EmptyString = Some (content_or_placeholder (Some EmptyString))))
  ∧ commandCompletePhase (Some "the plan") Sample.planning_manager
      Sample.planning (Sample.plan_review_manager, Sample.plan_review)
    = ([Fail ("Complete phase failed: No agent assigned to phase "
              ++ Js.dquote ++ "plan_review" ++ Js.dquote
              ++ ". Cannot save output.")],
       Sample.plan_review_manager, Sample.plan_review).
Proof.
  split.
  - apply (X19_completePhase_records_an_output (Some EmptyString)
             Sample.planning_manager Sample.planning_manager
             Sample.planning Sample.planning); reflexivity.
  - apply (X19_completePhase_records_an_output (Some "the plan")
             Sample.planning_manager Sample.plan_review_manager
             Sample.planning Sample.plan_review); reflexivity.
Defined.





(** *** Auto-complete on file save *)




Lemma append_empty (s : string) : EmptyString ++ s = s.
Proof. reflexivity. Qed.

Lemma append_String (x : Ascii.ascii) (a s : string) :
  String x a ++ s = String x (a ++ s).
Proof. reflexivity. Qed.

Lemma prefix_to_separator (c : Ascii.ascii) (dir first rest : string) :
  occurs c dir = false →
  occurs c first = false →
  String.prefix (dir ++ String c EmptyString) (first ++ String c rest)
  = bool_decide (first = dir).
Proof.
  revert first. induction dir as [|d dir IH]; intros [|x first] Hdir Hfirst;
    rewrite ?append_empty, ?append_String; cbn in *.
  - destruct (Ascii.ascii_dec c c); [by destruct rest | done].
  - apply orb_false_iff in Hfirst as [Hx%bool_decide_eq_false _].
    destruct (Ascii.ascii_dec c x) as [<-|]; [done|].
    by rewrite bool_decide_eq_false_2.
  - apply orb_false_iff in Hdir as [Hd%bool_decide_eq_false _].
    destruct (Ascii.ascii_dec d c) as [<-|]; [done|].
    by rewrite bool_decide_eq_false_2.
  - apply orb_false_iff in Hdir as [_ Hdir].
    apply orb_false_iff in Hfirst as [_ Hfirst].
    destruct (Ascii.ascii_dec d x) as [<-|Hne].
    + rewrite (IH first Hdir Hfirst).
      apply bool_decide_ext. split; [by intros -> | by intros [= ->]].
    + rewrite bool_decide_eq_false_2; [done|]. intros [= -> _]. done.
Qed.

Lemma no_prefix_without_separator (c : Ascii.ascii) (dir first : string) :
  occurs c first = false →
  String.prefix (dir ++ String c EmptyString) first = false.
Proof.
  revert dir. induction first as [|x first IH]; intros [|d dir] Hfirst;
    rewrite ?append_empty, ?append_String; cbn in *; try done.
  - apply orb_false_iff in Hfirst as [Hx%bool_decide_eq_false _].
    by destruct (Ascii.ascii_dec c x) as [<-|].
  - apply orb_false_iff in Hfirst as [_ Hfirst].
    destruct (Ascii.ascii_dec d x); [by apply IH | done].
Qed.

Lemma separator_occurs (c : Ascii.ascii) (first rest : string) :
  occurs c (first ++ String c rest) = true.
Proof.
  induction first as [|x first IH]; rewrite ?append_empty, ?append_String; cbn.
  - by rewrite bool_decide_eq_true_2.
  - rewrite IH. apply orb_true_r.
Qed.

Lemma existsb_is (f : string → bool) (y : string) (l : list string) :
  (∀ x, x ∈ l → f x = bool_decide (y = x)) →
  existsb f l = bool_decide (y ∈ l).
Proof.
  induction l as [|x l IH]; intros Hf; cbn.
  - symmetry. apply bool_decide_eq_false_2. by intros ?%elem_of_nil.
  - rewrite Hf by left. rewrite IH by (intros; apply Hf; by right).
    destruct (decide (y = x)) as [->|Hne].
    + rewrite bool_decide_eq_true_2 by done.
      symmetry. apply bool_decide_eq_true_2. left.
    + rewrite (bool_decide_eq_false_2 (y = x)) by done.
      apply bool_decide_ext. rewrite elem_of_cons.
      split; [intros ?; by right | by intros [?|?]].
Qed.

Lemma separators_not_in_names (c : Ascii.ascii) (dir : string) :
  c ∈ separators → dir ∈ AUTO_COMPLETE_IGNORE → occurs c dir = false.
Proof.
  intros Hc Hdir. unfold separators in Hc.
  repeat (apply elem_of_cons in Hc as [-> | Hc];
          [ repeat (apply elem_of_cons in Hdir as [-> | Hdir]; [reflexivity|]);
            by apply elem_of_nil in Hdir | ]).
  by apply elem_of_nil in Hc.
Qed.

(** X22: a saved file is left out of the count exactly when the first
    component of its path relative to the workspace is one of the eight
    ignored names.  A directory of such a name deeper in the tree, as in
    src/node_modules/x.js, does not hide the file, and neither does a name
    that only begins like an ignored one, as .gitignore. *)
Theorem X22_ignored_by_first_component (c : Ascii.ascii) (first rest : string) :
  c ∈ separators →
  occurs c first = false →
  shouldIgnore (String c EmptyString) (first ++ String c rest)
  = bool_decide (first ∈ AUTO_COMPLETE_IGNORE)
  ∧ shouldIgnore (String c EmptyString) first
    = bool_decide (first ∈ AUTO_COMPLETE_IGNORE).
Proof.
  intros Hc Hfirst. unfold shouldIgnore. split; apply existsb_is; intros dir Hdir.
  - rewrite (prefix_to_separator c dir first rest
               (separators_not_in_names c dir Hc Hdir) Hfirst).
    rewrite (bool_decide_eq_false_2 (first ++ String c rest = dir)).
    + apply orb_false_r.
    + intros Heq.
      pose proof (separators_not_in_names c dir Hc Hdir) as Hno.
      rewrite <- Heq, separator_occurs in Hno. done.
  - by rewrite (no_prefix_without_separator c dir first Hfirst).
Qed.

Lemma X22_ignored_by_first_component_witness :
  shouldIgnore "/" ("src" ++ "/node_modules/x.js")
  = bool_decide ("src" ∈ AUTO_COMPLETE_IGNORE)
  ∧ shouldIgnore "/" "src" = bool_decide ("src" ∈ AUTO_COMPLETE_IGNORE).
Proof.
  apply (X22_ignored_by_first_component (Ascii.ascii_of_nat 47) "src"
           "node_modules/x.js").
  - apply (bool_decide_unpack _). vm_compute. exact I.
  - reflexivity.
Defined.

End ExtensionCommands.

(** ** The prompt: previous outputs *)

Section Prompt.

Import Storage PromptGenerator.

Lemma string_app_assoc' (a b c : string) : (a ++ b) ++ c = a ++ (b ++ c).
Proof.
  induction a as [|x a IH]; rewrite ?append_empty, ?append_String;
    [done | by rewrite IH].
Qed.

Lemma prefix_of_append (a b : string) : String.prefix a (a ++ b) = true.
Proof.
  induction a as [|x a IH]; rewrite ?append_empty, ?append_String; cbn;
    [by destruct b|].
  by destruct (Ascii.ascii_dec x x).
Qed.

Lemma forallb_none {A} (f : string → option A) (l : list string) :
  forallb (λ k, bool_decide (f k = None)) l
  = negb (existsb (λ k, bool_decide (is_Some (f k))) l).
Proof.
  induction l as [|k l IH]; [done|].
  cbn [forallb existsb]. rewrite IH, negb_orb. f_equal.
  destruct (f k) as [v|].
  - rewrite bool_decide_eq_false_2 by done.
    by rewrite bool_decide_eq_true_2.
  - rewrite bool_decide_eq_true_2 by done.
    rewrite bool_decide_eq_false_2; [done|]. by intros [? ?].
Qed.

Lemma previous_outputs_fold (state : PipelineState) (inputs : list string)
    (title tail : string) (hasOutput : bool) :
  ∃ tail',
    foldl (λ '(section, hasOutput) inputKey,
             match printed_output (Js.get (outputs state) inputKey) with
             | Some output =>
                 (section ++ "### " ++ heading inputKey ++ " Output" ++ nl
                  ++ output ++ nl ++ nl, true)
             | None => (section, hasOutput)
             end)
      (title ++ tail, hasOutput) inputs
    = (title ++ tail',
       hasOutput
       || existsb (λ inputKey,
                     bool_decide
                       (is_Some (printed_output (Js.get (outputs state) inputKey))))
            inputs).
Proof.
  revert tail hasOutput.
  induction inputs as [|inputKey inputs IH]; intros tail hasOutput; cbn [foldl existsb].
  - exists tail. by rewrite orb_false_r.
  - destruct (printed_output (Js.get (outputs state) inputKey)) as [output|].
    + rewrite string_app_assoc'.
      destruct (IH (tail ++ "### " ++ heading inputKey ++ " Output" ++ nl
                    ++ output ++ nl ++ nl) true) as [tail' ->].
      exists tail'. rewrite bool_decide_eq_true_2 by done.
      by rewrite orb_true_r.
    + destruct (IH tail hasOutput) as [tail' ->].
      exists tail'. rewrite bool_decide_eq_false_2 by (by intros [? ?]).
      done.
Qed.

(** X23: the prompt has a section of previous outputs exactly when one of
    the agent's required inputs has a recorded output that is not empty.
    With no required input, or with every required output missing or empty,
    the section is the empty string and not a bare title; otherwise it
    begins with the title. *)
Theorem X23_previous_outputs_or_nothing (state : PipelineState)
    (requiredInputs : list string) :
  if forallb (λ inputKey,
                bool_decide
                  (printed_output (Js.get (outputs state) inputKey) = None))
       requiredInputs
  then buildPreviousOutputsSection state requiredInputs = EmptyString
  else String.prefix ("## Previous Agent Outputs" ++ nl ++ nl)
         (buildPreviousOutputsSection state requiredInputs) = true.
Proof.
  unfold buildPreviousOutputsSection.
  destruct requiredInputs as [|inputKey requiredInputs]; [reflexivity|].
  rewrite bool_decide_eq_false_2 by done.
  destruct (previous_outputs_fold state (inputKey :: requiredInputs)
              ("## Previous Agent Outputs" ++ nl ++ nl) EmptyString false)
    as [tail Hfold].
  replace (("## Previous Agent Outputs" ++ nl ++ nl) ++ EmptyString)
    with ("## Previous Agent Outputs" ++ nl ++ nl) in Hfold by reflexivity.
  rewrite Hfold. cbn [orb].
  rewrite (forallb_none (λ inputKey,
                           printed_output (Js.get (outputs state) inputKey))).
  destruct (existsb _ _); cbn [negb]; [|done].
  apply prefix_of_append.
Qed.

End Prompt.
